(** * vastcap-go: the client of the VastCap captcha-solving API

    A shallow embedding of [vastcap.go] and proofs about it.

    The Go file is a typed facade over two HTTP endpoints.  Everything it
    does goes through two libraries: [encoding/json] (struct tags,
    [omitempty], decoding into structs) and [carlmjohnson/requests] (the
    builder [URL(...).BodyJSON(...).ToJSON(...).CheckStatus(...).Fetch(...)]).
    Both are modelled here as far as the client exercises them:

    - JSON is modelled as a tree ([json]): an object is the ordered list of
      its members as they are on the wire, a string is the Go string it is
      encoded from or decoded to.  The byte-level syntax (escaping and the
      replacement of invalid UTF-8, whitespace, the digits of numbers) is
      below this model; a response body that is not well-formed JSON text
      is [None].
    - Go memory is a list of cells ([mem]); a pointer is an index.  A
      by-value struct parameter that the callee assigns to is a fresh cell of
      the callee, initialised with a copy of the argument.
    - The remote service is a function from the request to a reply
      ([remote]); every request handed to the HTTP client is appended to
      [wire].  The HTTP client is [http.DefaultClient], which follows
      redirects on its own ([Client_Do]): what a method sees is the reply
      that ends the exchange. *)

From Stdlib Require Import ZArith NArith String Ascii List Lia.
From Stdlib Require Import PrimFloat SpecFloat FloatOps.
From stdpp Require Import base option list strings gmap.

Local Open Scope Z_scope.

(** ** JSON values *)

(** A number literal.  [NInt neg abs] is a literal without fraction and
    exponent part (sign and magnitude, so that [-0] is a literal of its
    own); [NFloat f] is any other literal, given by the float64 nearest to
    it (an infinity when the literal is out of range). *)
Inductive number :=
| NInt (neg : bool) (abs : N)
| NFloat (f : float).

#[local] Unset Elimination Schemes.
Inductive json :=
| JNull
| JBool (b : bool)
| JNumber (n : number)
| JString (s : string)
| JArray (elems : list json)
| JObject (members : list (string * json)).
#[local] Set Elimination Schemes.

(** The value of the first member named [k] of an object. *)
Fixpoint assoc (k : string) (ms : list (string * json)) : option json :=
  match ms with
  | [] => None
  | (k', v) :: ms' => if String.eqb k k' then Some v else assoc k ms'
  end.

Definition member (k : string) (j : json) : option json :=
  match j with
  | JObject ms => assoc k ms
  | _ => None
  end.

(** ** The data model of vastcap.go *)

Record VastCap := mkVastCap { VastCap_APIKey : string }.

Record apiError := mkApiError {
  apiError_ErrorId : Z;                  (* int, `json:"errorId"` *)
  apiError_ErrorCode : string;           (* `json:"errorCode"` *)
  apiError_ErrorDescription : string     (* `json:"errorDescription"` *)
}.

Record TaskBase := mkTaskBase {
  TaskBase_Type : string;                (* `json:"type"` *)
  TaskBase_Proxy : string;               (* `json:"proxy,omitempty"` *)
  TaskBase_UserAgent : string;           (* `json:"userAgent,omitempty"` *)
  TaskBase_WebsiteKey : string;          (* `json:"websiteKey"` *)
  TaskBase_WebsiteURL : string           (* `json:"websiteURL"` *)
}.

Record HCaptchaTask := mkHCaptchaTask {
  HCaptchaTask_TaskBase : TaskBase;      (* embedded *)
  HCaptchaTask_RqData : string;          (* `json:"rqdata,omitempty"` *)
  HCaptchaTask_Invisible : bool;         (* `json:"invisible,omitempty"` *)
  HCaptchaTask_Enterprise : bool         (* `json:"enterprise,omitempty"` *)
}.

Record RecaptchaTask := mkRecaptchaTask {
  RecaptchaTask_TaskBase : TaskBase;     (* embedded *)
  RecaptchaTask_IsInvisible : bool;      (* `json:"isInvisible,omitempty"` *)
  RecaptchaTask_MinScore : float;        (* float64, `json:"minScore,omitempty"` *)
  RecaptchaTask_PageAction : string      (* `json:"pageAction,omitempty"` *)
}.

(** The anonymous struct type of [FunCaptchaTask.Data].  The map is only
    ever read (by the encoder), so it is embedded by value. *)
Record FunCaptchaData := mkFunCaptchaData {
  Data_Blob : string;                          (* `json:"blob,omitempty"` *)
  Data_CustomCookies : gmap string string      (* `json:"custom_cookies,omitempty"` *)
}.

Record FunCaptchaTask := mkFunCaptchaTask {
  FunCaptchaTask_TaskBase : TaskBase;    (* embedded *)
  FunCaptchaTask_Data : FunCaptchaData   (* `json:"data,omitempty"` *)
}.

Record TurnstileTask := mkTurnstileTask {
  TurnstileTask_TaskBase : TaskBase;     (* embedded *)
  TurnstileTask_Invisible : bool         (* `json:"invisible,omitempty"` *)
}.

Record taskSolution := mkTaskSolution {
  taskSolution_GRecaptchaResponse : option string;  (* *string, `json:"gRecaptchaResponse,omitempty"` *)
  taskSolution_HCaptchaResponse : option string;    (* *string, `json:"hCaptchaResponse,omitempty"` *)
  taskSolution_TurnstileResponse : option string;   (* *string, `json:"turnstileResponse,omitempty"` *)
  taskSolution_Text : option string;                (* *string, `json:"text,omitempty"` *)
  taskSolution_Score : option float;                (* *float64, `json:"score,omitempty"` *)
  taskSolution_UserAgent : option string            (* *string, `json:"userAgent,omitempty"` *)
}.

Record TaskResult := mkTaskResult {
  TaskResult_Status : string;                  (* `json:"status"` *)
  TaskResult_Solution : option taskSolution;   (* *taskSolution, `json:"solution,omitempty"` *)
  TaskResult_Error : option apiError           (* *apiError, `json:"error,omitempty"` *)
}.

(** The anonymous struct each create method declares as [var resp]. *)
Record createResp := mkCreateResp {
  createResp_TaskID : string;            (* `json:"taskId"` *)
  createResp_Error : option apiError     (* *apiError, `json:"error,omitempty"` *)
}.

Definition createTaskURL : string := "https://captcha.vast.sh/api/solver/createTask".
Definition getTaskResultURL : string := "https://captcha.vast.sh/api/solver/getTaskResult".

(** [data.Type = ty] through the embedded [TaskBase], one per struct. *)
Definition TaskBase_set_Type (ty : string) (t : TaskBase) : TaskBase :=
  mkTaskBase ty (TaskBase_Proxy t) (TaskBase_UserAgent t)
             (TaskBase_WebsiteKey t) (TaskBase_WebsiteURL t).

Definition HCaptchaTask_set_Type (ty : string) (t : HCaptchaTask) : HCaptchaTask :=
  mkHCaptchaTask (TaskBase_set_Type ty (HCaptchaTask_TaskBase t))
                 (HCaptchaTask_RqData t) (HCaptchaTask_Invisible t) (HCaptchaTask_Enterprise t).

Definition RecaptchaTask_set_Type (ty : string) (t : RecaptchaTask) : RecaptchaTask :=
  mkRecaptchaTask (TaskBase_set_Type ty (RecaptchaTask_TaskBase t))
                  (RecaptchaTask_IsInvisible t) (RecaptchaTask_MinScore t) (RecaptchaTask_PageAction t).

Definition FunCaptchaTask_set_Type (ty : string) (t : FunCaptchaTask) : FunCaptchaTask :=
  mkFunCaptchaTask (TaskBase_set_Type ty (FunCaptchaTask_TaskBase t)) (FunCaptchaTask_Data t).

Definition TurnstileTask_set_Type (ty : string) (t : TurnstileTask) : TurnstileTask :=
  mkTurnstileTask (TaskBase_set_Type ty (TurnstileTask_TaskBase t)) (TurnstileTask_Invisible t).

(** A Go value of one of the types the client stores in a variable or puts
    behind [interface{}]. *)
Inductive value :=
| VString (s : string)
| VVastCap (v : VastCap)
| VTaskBase (t : TaskBase)
| VHCaptchaTask (t : HCaptchaTask)
| VRecaptchaTask (t : RecaptchaTask)
| VFunCaptchaTask (t : FunCaptchaTask)
| VTurnstileTask (t : TurnstileTask).

(** ** encoding/json: Marshal *)

(** [omitempty]: the member is left out when the Go value is empty. *)
Definition omitempty (empty : bool) (k : string) (v : json) : list (string * json) :=
  if empty then [] else [(k, v)].

(** [isEmptyValue] on a string: [v.Len() == 0]. *)
Definition string_empty (s : string) : bool :=
  match s with
  | EmptyString => true
  | String _ _ => false
  end.

(** The magnitude [m * 2^e] when it is a whole number. *)
Definition integral_magnitude (m : positive) (e : Z) : option N :=
  if 0 <=? e then Some (Z.to_N (Z.shiftl (Z.pos m) e))
  else if Z.land (Z.pos m) (Z.ones (- e)) =? 0 then Some (Z.to_N (Z.shiftr (Z.pos m) (- e)))
  else None.

(** [a / b] rounded to the nearest integer, to the even one of two that are
    equally near. *)
Definition div_nearest_even (a b : Z) : Z :=
  let q := a / b in
  let r := a mod b in
  if 2 * r <? b then q
  else if b <? 2 * r then q + 1
  else if Z.even q then q else q + 1.

(** The shortest digits, as [strconv] finds them for a value [v4 / 4] whose
    neighbourhood (the numbers that read back as the same float64) is
    [lo4 / 4 .. hi4 / 4]: the multiples of [10^k] in the neighbourhood for
    the largest [k] that has one, and of these the one nearest to the
    value. *)
Fixpoint shortest_in (lo4 v4 hi4 : Z) (k : nat) : Z :=
  let p := 4 * 10 ^ Z.of_nat k in
  let l := (lo4 + p - 1) / p in
  let u := hi4 / p in
  if l <=? u then Z.max l (Z.min u (div_nearest_even v4 p)) * 10 ^ Z.of_nat k
  else match k with
       | O => v4 / 4
       | S k' => shortest_in lo4 v4 hi4 k'
       end.

(** The integer [strconv.FormatFloat(f, 'f', -1, 64)] prints for the whole
    number [m * 2^e] with a mantissa [m] of 53 bits and [0 < e], below
    [10^21].  The neighbourhood reaches half way to the next float64 on
    either side (the one below is at half the distance when [m] is [2^52]);
    its ends belong to it when [m] is even. *)
Definition shortest_whole (m : positive) (e : Z) : N :=
  let v4 := Z.pos m * 2 ^ (e + 2) in
  let up := 2 ^ (e + 1) in
  let down := if Z.pos m =? 2 ^ 52 then 2 ^ e else 2 ^ (e + 1) in
  let open := if Z.even (Z.pos m) then 0 else 1 in
  Z.to_N (shortest_in (v4 - down + open) v4 (v4 + up - open) 21).

(** The literal the encoder prints for a finite float64: the shortest
    decimal that reads back as [f], with an exponent when [f] is below
    [1e-6] or from [1e21] on in magnitude.  A whole number below [1e21] is
    printed as an integer literal: as itself below [2^53], with its shortest
    digits followed by zeros from there on.  Any other number is printed
    with a fraction or an exponent. *)
Definition float64_literal (f : float) : number :=
  match Prim2SF f with
  | S754_zero s => NInt s 0
  | S754_finite s m e =>
      match integral_magnitude m e with
      | Some n =>
          if (n <? 2 ^ 53)%N then NInt s n
          else if (n <? 10 ^ 21)%N then NInt s (shortest_whole m e)
          else NFloat f
      | None => NFloat f
      end
  | _ => NFloat f
  end.

(** A float64 member with [omitempty]: nothing for a zero (of either
    sign), an [UnsupportedValueError] ([None]) for NaN and the infinities. *)
Definition float64_member (k : string) (f : float) : option (list (string * json)) :=
  if PrimFloat.is_zero f then Some []
  else if PrimFloat.is_finite f then Some [(k, JNumber (float64_literal f))]
  else None.

(** The entries of a Go map in the order the encoder writes them: sorted by
    key, byte-wise. *)
Fixpoint insert_by_key {A} (kv : string * A) (l : list (string * A)) : list (string * A) :=
  match l with
  | [] => [kv]
  | kv' :: l' => if String.leb (fst kv) (fst kv') then kv :: l else kv' :: insert_by_key kv l'
  end.

Definition sorted_entries {A} (m : gmap string A) : list (string * A) :=
  foldr insert_by_key [] (map_to_list m).

(** The promoted fields of the embedded [TaskBase], in declaration order. *)
Definition TaskBase_members (t : TaskBase) : list (string * json) :=
  [("type", JString (TaskBase_Type t))]
  ++ omitempty (string_empty (TaskBase_Proxy t)) "proxy" (JString (TaskBase_Proxy t))
  ++ omitempty (string_empty (TaskBase_UserAgent t)) "userAgent" (JString (TaskBase_UserAgent t))
  ++ [("websiteKey", JString (TaskBase_WebsiteKey t));
      ("websiteURL", JString (TaskBase_WebsiteURL t))].

Definition HCaptchaTask_members (t : HCaptchaTask) : list (string * json) :=
  TaskBase_members (HCaptchaTask_TaskBase t)
  ++ omitempty (string_empty (HCaptchaTask_RqData t)) "rqdata" (JString (HCaptchaTask_RqData t))
  ++ omitempty (negb (HCaptchaTask_Invisible t)) "invisible" (JBool (HCaptchaTask_Invisible t))
  ++ omitempty (negb (HCaptchaTask_Enterprise t)) "enterprise" (JBool (HCaptchaTask_Enterprise t)).

Definition RecaptchaTask_members (t : RecaptchaTask) : option (list (string * json)) :=
  score ← float64_member "minScore" (RecaptchaTask_MinScore t);
  Some (TaskBase_members (RecaptchaTask_TaskBase t)
        ++ omitempty (negb (RecaptchaTask_IsInvisible t)) "isInvisible" (JBool (RecaptchaTask_IsInvisible t))
        ++ score
        ++ omitempty (string_empty (RecaptchaTask_PageAction t)) "pageAction" (JString (RecaptchaTask_PageAction t))).

(** [omitempty] on a map looks at its length. *)
Definition Data_members (d : FunCaptchaData) : list (string * json) :=
  omitempty (string_empty (Data_Blob d)) "blob" (JString (Data_Blob d))
  ++ omitempty (bool_decide (Data_CustomCookies d = ∅)) "custom_cookies"
       (JObject (map (fun kv => (fst kv, JString (snd kv))) (sorted_entries (Data_CustomCookies d)))).

(** [isEmptyValue] has no case for [reflect.Struct]: a struct is never
    empty, and [omitempty] on the [Data] field has no effect. *)
Definition FunCaptchaTask_members (t : FunCaptchaTask) : list (string * json) :=
  TaskBase_members (FunCaptchaTask_TaskBase t)
  ++ omitempty false "data" (JObject (Data_members (FunCaptchaTask_Data t))).

Definition TurnstileTask_members (t : TurnstileTask) : list (string * json) :=
  TaskBase_members (TurnstileTask_TaskBase t)
  ++ omitempty (negb (TurnstileTask_Invisible t)) "invisible" (JBool (TurnstileTask_Invisible t)).

(** [json.Marshal] by the dynamic type of the value; [None] is the
    encoder's [UnsupportedValueError]. *)
Definition Marshal (v : value) : option json :=
  match v with
  | VString s => Some (JString s)
  | VVastCap c => Some (JObject [("APIKey", JString (VastCap_APIKey c))])
  | VTaskBase t => Some (JObject (TaskBase_members t))
  | VHCaptchaTask t => Some (JObject (HCaptchaTask_members t))
  | VRecaptchaTask t => JObject <$> RecaptchaTask_members t
  | VFunCaptchaTask t => Some (JObject (FunCaptchaTask_members t))
  | VTurnstileTask t => Some (JObject (TurnstileTask_members t))
  end.

(** [json.Marshal] of a [map[string]interface{}]. *)
Definition MarshalMap (m : gmap string value) : option json :=
  JObject <$> mapM (fun kv => j ← Marshal (snd kv); Some (fst kv, j)) (sorted_entries m).

(** ** encoding/json: Unmarshal into a struct *)

Definition upper (c : ascii) : ascii :=
  if (Ascii.leb "a" c && Ascii.leb c "z")%bool
  then ascii_of_N (N_of_ascii c - 32)
  else c.

Definition is_byte (n : N) (c : ascii) : bool := (N_of_ascii c =? n)%N.

(** [foldName]: the decoder matches member names to field names up to
    Unicode simple case folding.  ASCII letters fold to upper case; the only
    other runes whose folding reaches an ASCII letter are U+017F (long s,
    bytes C5 BF), which folds to S, and U+212A (Kelvin sign, bytes E2 84
    AA), which folds to K.  All field names here are ASCII, so the folding of
    other runes never decides a match and they are kept as they are. *)
Fixpoint foldName (s : string) : string :=
  match s with
  | EmptyString => EmptyString
  | String c s1 =>
      match s1 with
      | EmptyString => String (upper c) EmptyString
      | String c1 s2 =>
          if (is_byte 197 c && is_byte 191 c1)%bool then String "S" (foldName s2)
          else
            match s2 with
            | EmptyString => String (upper c) (foldName s1)
            | String c2 s3 =>
                if (is_byte 226 c && is_byte 132 c1 && is_byte 170 c2)%bool
                then String "K" (foldName s3)
                else String (upper c) (foldName s1)
            end
      end
  end.

(** Does the member name [k] select the field tagged [name]? *)
Definition field (name k : string) : bool :=
  String.eqb (foldName k) (foldName name).

(** The decoders below take the JSON value and the current content of the
    destination and give its new content, or [None] where [Unmarshal]
    reports an [UnmarshalTypeError].  (Go records the first such error and
    goes on decoding; the error is what [Unmarshal] returns in the end, and
    the callers here drop the destination when it does.) *)

Definition into_string (j : json) (cur : string) : option string :=
  match j with
  | JString s => Some s
  | JNull => Some cur
  | _ => None
  end.

Definition signed (neg : bool) (n : N) : Z :=
  if neg then - Z.of_N n else Z.of_N n.

(** Go's [int] is taken to be 64 bits wide. *)
Definition into_int (j : json) (cur : Z) : option Z :=
  match j with
  | JNumber (NInt neg n) =>
      let z := signed neg n in
      if ((- 2 ^ 63 <=? z) && (z <? 2 ^ 63))%bool then Some z else None
  | JNull => Some cur
  | _ => None
  end.

(** [strconv.ParseFloat]: the nearest float64, an error when out of range. *)
Definition number_float64 (n : number) : option float :=
  let f := match n with
           | NInt neg abs => SF2Prim (binary_normalize prec emax (signed neg abs) 0 neg)
           | NFloat f => f
           end in
  if PrimFloat.is_finite f then Some f else None.

Definition into_float64 (j : json) (cur : float) : option float :=
  match j with
  | JNumber n => number_float64 n
  | JNull => Some cur
  | _ => None
  end.

(** A pointer field: [null] sets it to nil; any other value is decoded into
    the pointee, which is allocated (zeroed) when the pointer was nil. *)
Definition into_ptr {T} (into : json -> T -> option T) (zero : T)
    (j : json) (cur : option T) : option (option T) :=
  match j with
  | JNull => Some None
  | _ => Some <$> into j (default zero cur)
  end.

(** A struct: the members of the object are taken in order, each one
    stored into the field it selects; [null] leaves the struct as it is;
    anything else is a type error. *)
Definition into_struct {T} (set_field : string -> json -> T -> option T)
    (j : json) (cur : T) : option T :=
  match j with
  | JNull => Some cur
  | JObject ms => foldl (fun acc kv => acc ≫= set_field (fst kv) (snd kv)) (Some cur) ms
  | _ => None
  end.

Definition apiError_zero : apiError := mkApiError 0 "" "".

Definition apiError_field (k : string) (v : json) (e : apiError) : option apiError :=
  if field "errorId" k then
    x ← into_int v (apiError_ErrorId e);
    Some (mkApiError x (apiError_ErrorCode e) (apiError_ErrorDescription e))
  else if field "errorCode" k then
    x ← into_string v (apiError_ErrorCode e);
    Some (mkApiError (apiError_ErrorId e) x (apiError_ErrorDescription e))
  else if field "errorDescription" k then
    x ← into_string v (apiError_ErrorDescription e);
    Some (mkApiError (apiError_ErrorId e) (apiError_ErrorCode e) x)
  else Some e.

Definition createResp_zero : createResp := mkCreateResp "" None.

Definition createResp_field (k : string) (v : json) (r : createResp) : option createResp :=
  if field "taskId" k then
    x ← into_string v (createResp_TaskID r);
    Some (mkCreateResp x (createResp_Error r))
  else if field "error" k then
    x ← into_ptr (into_struct apiError_field) apiError_zero v (createResp_Error r);
    Some (mkCreateResp (createResp_TaskID r) x)
  else Some r.

Definition taskSolution_zero : taskSolution :=
  mkTaskSolution None None None None None None.

Definition taskSolution_field (k : string) (v : json) (s : taskSolution) : option taskSolution :=
  let '(mkTaskSolution g h t x sc ua) := s in
  if field "gRecaptchaResponse" k then
    y ← into_ptr into_string "" v g; Some (mkTaskSolution y h t x sc ua)
  else if field "hCaptchaResponse" k then
    y ← into_ptr into_string "" v h; Some (mkTaskSolution g y t x sc ua)
  else if field "turnstileResponse" k then
    y ← into_ptr into_string "" v t; Some (mkTaskSolution g h y x sc ua)
  else if field "text" k then
    y ← into_ptr into_string "" v x; Some (mkTaskSolution g h t y sc ua)
  else if field "score" k then
    y ← into_ptr into_float64 0%float v sc; Some (mkTaskSolution g h t x y ua)
  else if field "userAgent" k then
    y ← into_ptr into_string "" v ua; Some (mkTaskSolution g h t x sc y)
  else Some s.

Definition TaskResult_zero : TaskResult := mkTaskResult "" None None.

Definition TaskResult_field (k : string) (v : json) (r : TaskResult) : option TaskResult :=
  if field "status" k then
    x ← into_string v (TaskResult_Status r);
    Some (mkTaskResult x (TaskResult_Solution r) (TaskResult_Error r))
  else if field "solution" k then
    x ← into_ptr (into_struct taskSolution_field) taskSolution_zero v (TaskResult_Solution r);
    Some (mkTaskResult (TaskResult_Status r) x (TaskResult_Error r))
  else if field "error" k then
    x ← into_ptr (into_struct apiError_field) apiError_zero v (TaskResult_Error r);
    Some (mkTaskResult (TaskResult_Status r) (TaskResult_Solution r) x)
  else Some r.

(** What [json.Unmarshal(data, &resp)] needs to know about the type of
    [resp]: its zero value and how a JSON value is stored into it. *)
Class Unmarshaler (R : Type) := {
  zero : R;
  Unmarshal : json -> R -> option R
}.

#[export] Instance createResp_Unmarshaler : Unmarshaler createResp :=
  {| zero := createResp_zero; Unmarshal := into_struct createResp_field |}.

#[export] Instance TaskResult_Unmarshaler : Unmarshaler TaskResult :=
  {| zero := TaskResult_zero; Unmarshal := into_struct TaskResult_field |}.

(** ** Go memory, the wire, and the monad of method bodies *)

Record Request := mkRequest {
  Request_Method : string;
  Request_URL : string;
  Request_Body : option json
}.

(** What comes back for a request: a failure of the transport, or a
    response with its status code and its body ([None] for a body that is
    not well-formed JSON text).  The one header that matters to the client
    is [Location]: [Response] is a response without it (or with an empty
    one), [Located] a response that has it.  The [Location] of [Located] is
    the URL the header resolves to against the URL of the request, [None]
    for a header that does not parse. *)
Inductive Reply :=
| NoReply (cause : string)
| Response (StatusCode : Z) (Body : option json)
| Located (StatusCode : Z) (Location : option string) (Body : option json).

(** The Go [error] values a caller of the client can get.  The first four
    are the error kinds of the requests library, in the order in which
    [Fetch] can fail; the last is the result of [fmt.Errorf], which holds
    the formatted message and nothing else. *)
Inductive error :=
| ErrRequest                    (* the request body could not be marshalled *)
| ErrTransport (cause : string) (* http.Client.Do failed *)
| ErrValidator (status : Z)     (* CheckStatus: unexpected status *)
| ErrHandler                    (* ToJSON: reading or unmarshalling failed *)
| Errorf (msg : string).

Definition loc := nat.

Record machine := mkMachine {
  mem : list value;      (* the cells allocated so far *)
  wire : list Request    (* the requests handed to the HTTP client so far, oldest first *)
}.

(** A method body either returns, leaving a machine, or panics. *)
Inductive outcome (A : Type) :=
| Return (a : A) (m : machine)
| Panic.
Arguments Return {A} a m.
Arguments Panic {A}.

Definition Go (A : Type) : Type := machine -> outcome A.

#[export] Instance Go_ret : MRet Go := fun A a m => Return a m.

#[export] Instance Go_bind : MBind Go := fun A B f c m =>
  match c m with
  | Return a m' => f a m'
  | Panic => Panic
  end.

(** Go types that live in cells. *)
Class Cell (T : Type) := {
  box : T -> value;
  unbox : value -> option T;
  unbox_box : forall x, unbox (box x) = Some x
}.

#[export] Instance VastCap_Cell : Cell VastCap :=
  {| box := VVastCap; unbox v := match v with VVastCap x => Some x | _ => None end;
     unbox_box := fun _ => eq_refl |}.
#[export] Instance TaskBase_Cell : Cell TaskBase :=
  {| box := VTaskBase; unbox v := match v with VTaskBase x => Some x | _ => None end;
     unbox_box := fun _ => eq_refl |}.
#[export] Instance HCaptchaTask_Cell : Cell HCaptchaTask :=
  {| box := VHCaptchaTask; unbox v := match v with VHCaptchaTask x => Some x | _ => None end;
     unbox_box := fun _ => eq_refl |}.
#[export] Instance RecaptchaTask_Cell : Cell RecaptchaTask :=
  {| box := VRecaptchaTask; unbox v := match v with VRecaptchaTask x => Some x | _ => None end;
     unbox_box := fun _ => eq_refl |}.
#[export] Instance FunCaptchaTask_Cell : Cell FunCaptchaTask :=
  {| box := VFunCaptchaTask; unbox v := match v with VFunCaptchaTask x => Some x | _ => None end;
     unbox_box := fun _ => eq_refl |}.
#[export] Instance TurnstileTask_Cell : Cell TurnstileTask :=
  {| box := VTurnstileTask; unbox v := match v with VTurnstileTask x => Some x | _ => None end;
     unbox_box := fun _ => eq_refl |}.

(** A new variable (or [&T{...}]): a fresh cell at the end of the memory. *)
Definition alloc {T} `{Cell T} (x : T) : Go loc := fun m =>
  Return (length (mem m)) (mkMachine (mem m ++ [box x]) (wire m)).

(** Reading through a pointer.  An address that holds no [T] stands for a
    nil pointer: the dereference panics. *)
Definition load {T} `{Cell T} (l : loc) : Go T := fun m =>
  match mem m !! l ≫= unbox with
  | Some x => Return x m
  | None => Panic
  end.

(** Assignment to (a field of) the variable at [l]. *)
Definition modify {T} `{Cell T} (l : loc) (f : T -> T) : Go unit := fun m =>
  match mem m !! l ≫= unbox with
  | Some x => Return tt (mkMachine (<[l := box (f x)]> (mem m)) (wire m))
  | None => Panic
  end.

Definition StatusOK : Z := 200.

(** ** carlmjohnson/requests *)

(** The request builder: the URL, the JSON body if any, the validators
    added so far (each [CheckStatus] adds one, given by the codes it
    accepts), and the destination of [ToJSON] with the decoder for its
    type. *)
Record Builder (R : Type) := mkBuilder {
  rb_url : string;
  rb_body : option (gmap string value);
  rb_validators : list (list Z);
  rb_dest : R;
  rb_handler : json -> R -> option R
}.
Arguments mkBuilder {R}.
Arguments rb_url {R}.
Arguments rb_body {R}.
Arguments rb_validators {R}.
Arguments rb_dest {R}.
Arguments rb_handler {R}.

Definition URL (u : string) : Builder unit :=
  mkBuilder u None [] tt (fun _ _ => Some tt).

Definition BodyJSON {R} (v : gmap string value) (rb : Builder R) : Builder R :=
  mkBuilder (rb_url rb) (Some v) (rb_validators rb) (rb_dest rb) (rb_handler rb).

Definition ToJSON {R S} `{Unmarshaler R} (resp : R) (rb : Builder S) : Builder R :=
  mkBuilder (rb_url rb) (rb_body rb) (rb_validators rb) resp Unmarshal.

Definition CheckStatus {R} (acceptStatuses : list Z) (rb : Builder R) : Builder R :=
  mkBuilder (rb_url rb) (rb_body rb) (rb_validators rb ++ [acceptStatuses])
            (rb_dest rb) (rb_handler rb).

(** The response is valid when every validator accepts its status; with
    no validator, [DefaultValidator] is used, which accepts OK, Created,
    Accepted, Non-Authoritative Info and No Content. *)
Definition accepted {R} (rb : Builder R) (code : Z) : bool :=
  match rb_validators rb with
  | [] => existsb (Z.eqb code) [200; 201; 202; 203; 204]
  | validators => forallb (existsb (Z.eqb code)) validators
  end.

(** The request [Fetch] builds: the body is marshalled first (a failure
    ends the call before anything is sent); a request with a body is a
    POST. *)
Definition build {R} (rb : Builder R) : option Request :=
  match rb_body rb with
  | None => Some (mkRequest "GET" (rb_url rb) None)
  | Some v => j ← MarshalMap v; Some (mkRequest "POST" (rb_url rb) (Some j))
  end.

(** ** net/http: the client *)

(** [redirectBehavior]: whether the client takes a response with this
    status for a redirect and, if so, the method of the next request and
    whether it carries the body of the first request again.  (The requests
    library sets [GetBody], so the body can always be sent again.) *)
Definition redirectBehavior (reqMethod : string) (code : Z) : option (string * bool) :=
  if existsb (Z.eqb code) [301; 302; 303] then
    Some (if String.eqb reqMethod "GET" || String.eqb reqMethod "HEAD"
          then reqMethod else "GET", false)
  else if existsb (Z.eqb code) [307; 308] then Some (reqMethod, true)
  else None.

Section Client.

(** The remote service. *)
Variable remote : Request -> Reply.

(** The loop of [http.Client.do] from the round trip of [req] on, with
    [allowed] more round trips allowed after it; [ireq] is the first request.
    The result is the requests that went to the service, and what [Do]
    returns.  A redirect without [Location] is returned as it is; a
    [Location] that does not parse, and a redirect when no round trip is
    left ([defaultCheckRedirect]), are errors. *)
Fixpoint round_trips (allowed : nat) (ireq req : Request) : list Request * Reply :=
  match remote req with
  | Located code location body =>
      match redirectBehavior (Request_Method req) code with
      | None => ([req], Located code location body)
      | Some (redirectMethod, includeBody) =>
          match location with
          | None => ([req], NoReply "failed to parse Location header")
          | Some u =>
              match allowed with
              | O => ([req], NoReply "stopped after 10 redirects")
              | S allowed' =>
                  let next := mkRequest redirectMethod u
                                (if includeBody then Request_Body ireq else None) in
                  let '(more, reply) := round_trips allowed' ireq next in
                  (req :: more, reply)
              end
          end
      end
  | reply => ([req], reply)
  end.

(** [http.DefaultClient.Do]: at most ten round trips. *)
Definition Client_Do (req : Request) : Reply :=
  snd (round_trips 9 req req).

(** The requests that go to the service when [req] is handed to the
    client: [req], then those that follow redirects. *)
Definition round_trip_requests (req : Request) : list Request :=
  fst (round_trips 9 req req).

(** Handing a request to the HTTP client. *)
Definition send (req : Request) : Go Reply := fun m =>
  Return (Client_Do req) (mkMachine (mem m) (wire m ++ [req])).

(** [Fetch]: build, send, validate the status, then run the handler.  The
    result is the error (nil is [None]) and the content of the destination;
    on an error the destination is given back as it was, since no caller
    reads it then. *)
Definition Fetch {R} (rb : Builder R) : Go (option error * R) :=
  match build rb with
  | None => mret (Some ErrRequest, rb_dest rb)
  | Some req =>
      reply ← send req;
      match reply with
      | NoReply cause => mret (Some (ErrTransport cause), rb_dest rb)
      | Response code body | Located code _ body =>
          if negb (accepted rb code) then mret (Some (ErrValidator code), rb_dest rb)
          else
            match body ≫= (fun j => rb_handler rb j (rb_dest rb)) with
            | None => mret (Some ErrHandler, rb_dest rb)
            | Some r => mret (None, r)
            end
      end
  end.

(** ** The client *)

Definition New (apiKey : string) : Go loc :=
  alloc (mkVastCap apiKey).

Definition HCaptcha (c : loc) (data : HCaptchaTask) : Go (string * option error) :=
  data ← alloc data;                                      (* the parameter, passed by value *)
  let resp := createResp_zero in                          (* var resp struct {...} *)
  modify data (HCaptchaTask_set_Type "HCaptchaTask");;    (* data.Type = "HCaptchaTask" *)
  this ← load c;                                          (* c.APIKey *)
  task ← load data;                                       (* data, copied into the map *)
  '(err, resp) ← Fetch
    (CheckStatus [StatusOK]
      (ToJSON resp
        (BodyJSON {[ "clientKey" := VString (VastCap_APIKey this);
                     "task" := VHCaptchaTask task ]}
          (URL createTaskURL))));
  match err with
  | Some e => mret ("", Some e)
  | None =>
      match createResp_Error resp with
      | Some e =>
          mret ("", Some (Errorf ("vastcap error: " +:+ apiError_ErrorDescription e
                                  +:+ " (" +:+ apiError_ErrorCode e +:+ ")")))
      | None => mret (createResp_TaskID resp, None)
      end
  end.

Definition Recaptcha (c : loc) (data : RecaptchaTask) (v3 : bool) : Go (string * option error) :=
  data ← alloc data;
  modify data (RecaptchaTask_set_Type "RecaptchaV2Task");;    (* data.Type = "RecaptchaV2Task" *)
  (if v3 then modify data (RecaptchaTask_set_Type "RecaptchaV3Task") else mret tt);;
  let resp := createResp_zero in
  this ← load c;
  task ← load data;
  '(err, resp) ← Fetch
    (CheckStatus [StatusOK]
      (ToJSON resp
        (BodyJSON {[ "clientKey" := VString (VastCap_APIKey this);
                     "task" := VRecaptchaTask task ]}
          (URL createTaskURL))));
  match err with
  | Some e => mret ("", Some e)
  | None =>
      match createResp_Error resp with
      | Some e =>
          mret ("", Some (Errorf ("vastcap error: " +:+ apiError_ErrorDescription e
                                  +:+ " (" +:+ apiError_ErrorCode e +:+ ")")))
      | None => mret (createResp_TaskID resp, None)
      end
  end.

Definition Turnstile (c : loc) (data : TurnstileTask) : Go (string * option error) :=
  data ← alloc data;
  modify data (TurnstileTask_set_Type "TurnstileTask");;
  let resp := createResp_zero in
  this ← load c;
  task ← load data;
  '(err, resp) ← Fetch
    (CheckStatus [StatusOK]
      (ToJSON resp
        (BodyJSON {[ "clientKey" := VString (VastCap_APIKey this);
                     "task" := VTurnstileTask task ]}
          (URL createTaskURL))));
  match err with
  | Some e => mret ("", Some e)
  | None =>
      match createResp_Error resp with
      | Some e =>
          mret ("", Some (Errorf ("vastcap error: " +:+ apiError_ErrorDescription e
                                  +:+ " (" +:+ apiError_ErrorCode e +:+ ")")))
      | None => mret (createResp_TaskID resp, None)
      end
  end.

Definition FunCaptcha (c : loc) (data : FunCaptchaTask) : Go (string * option error) :=
  data ← alloc data;
  modify data (FunCaptchaTask_set_Type "FunCaptchaTask");;
  let resp := createResp_zero in
  this ← load c;
  task ← load data;
  '(err, resp) ← Fetch
    (CheckStatus [StatusOK]
      (ToJSON resp
        (BodyJSON {[ "clientKey" := VString (VastCap_APIKey this);
                     "task" := VFunCaptchaTask task ]}
          (URL createTaskURL))));
  match err with
  | Some e => mret ("", Some e)
  | None =>
      match createResp_Error resp with
      | Some e =>
          mret ("", Some (Errorf ("vastcap error: " +:+ apiError_ErrorDescription e
                                  +:+ " (" +:+ apiError_ErrorCode e +:+ ")")))
      | None => mret (createResp_TaskID resp, None)
      end
  end.

Definition ImageToText (c : loc) (data : TaskBase) : Go (string * option error) :=
  data ← alloc data;
  modify data (TaskBase_set_Type "ImageToTextTask");;
  let resp := createResp_zero in
  this ← load c;
  task ← load data;
  '(err, resp) ← Fetch
    (CheckStatus [StatusOK]
      (ToJSON resp
        (BodyJSON {[ "clientKey" := VString (VastCap_APIKey this);
                     "task" := VTaskBase task ]}
          (URL createTaskURL))));
  match err with
  | Some e => mret ("", Some e)
  | None =>
      match createResp_Error resp with
      | Some e =>
          mret ("", Some (Errorf ("vastcap error: " +:+ apiError_ErrorDescription e
                                  +:+ " (" +:+ apiError_ErrorCode e +:+ ")")))
      | None => mret (createResp_TaskID resp, None)
      end
  end.

(** GetResult retrieves the result of a previously created task by its ID. *)
Definition GetResult (c : loc) (taskID : string) : Go (TaskResult * option error) :=
  let resp := TaskResult_zero in
  this ← load c;
  '(err, resp) ← Fetch
    (CheckStatus [StatusOK]
      (ToJSON resp
        (BodyJSON {[ "clientKey" := VString (VastCap_APIKey this);
                     "taskId" := VString taskID ]}
          (URL getTaskResultURL))));
  match err with
  | Some e => mret (TaskResult_zero, Some e)
  | None =>
      match TaskResult_Error resp with
      | Some e =>
          mret (TaskResult_zero,
                Some (Errorf ("vastcap error: " +:+ apiError_ErrorDescription e
                              +:+ " (" +:+ apiError_ErrorCode e +:+ ")")))
      | None => mret (resp, None)
      end
  end.

End Client.

(** ** Notions used in the statements *)

(** The request a create method sends for the API key [key] and the
    encoded task [task]. *)
Definition createTask_request (key : string) (task : json) : Request :=
  mkRequest "POST" createTaskURL
    (Some (JObject [("clientKey", JString key); ("task", task)])).

Definition getTaskResult_request (key taskID : string) : Request :=
  mkRequest "POST" getTaskResultURL
    (Some (JObject [("clientKey", JString key); ("taskId", JString taskID)])).

(** The message the client formats from an error object of the service,
    and the error made of it. *)
Definition error_message (e : apiError) : string :=
  "vastcap error: " +:+ apiError_ErrorDescription e
  +:+ " (" +:+ apiError_ErrorCode e +:+ ")".

Definition vastcap_error (e : apiError) : error :=
  Errorf (error_message e).

(** What a create method returns, as a function of the reply that ends the
    exchange. *)
Definition createTask_result (reply : Reply) : string * option error :=
  match reply with
  | NoReply cause => ("", Some (ErrTransport cause))
  | Response code body | Located code _ body =>
      if code =? 200 then
        match body ≫= (fun j => Unmarshal j createResp_zero) with
        | None => ("", Some ErrHandler)
        | Some resp =>
            match createResp_Error resp with
            | Some e => ("", Some (vastcap_error e))
            | None => (createResp_TaskID resp, None)
            end
        end
      else ("", Some (ErrValidator code))
  end.

(** What [GetResult] returns, as a function of the reply. *)
Definition getTaskResult_result (reply : Reply) : TaskResult * option error :=
  match reply with
  | NoReply cause => (TaskResult_zero, Some (ErrTransport cause))
  | Response code body | Located code _ body =>
      if code =? 200 then
        match body ≫= (fun j => Unmarshal j TaskResult_zero) with
        | None => (TaskResult_zero, Some ErrHandler)
        | Some resp =>
            match TaskResult_Error resp with
            | Some e => (TaskResult_zero, Some (vastcap_error e))
            | None => (resp, None)
            end
        end
      else (TaskResult_zero, Some (ErrValidator code))
  end.

(** A mocked endpoint: every request gets the status [code] and the JSON
    body [body]. *)
Definition mock (code : Z) (body : json) : Request -> Reply :=
  fun _ => Response code (Some body).

(** The response bodies of the service that the statements below use. *)
Definition taskId_body (id : string) : json :=
  JObject [("taskId", JString id)].

Definition error_body (errorId : N) (errorCode errorDescription : string) : json :=
  JObject [("error", JObject [("errorId", JNumber (NInt false errorId));
                              ("errorCode", JString errorCode);
                              ("errorDescription", JString errorDescription)])].

Definition processing_body : json :=
  JObject [("status", JString "processing")].

Definition ready_body (token : string) : json :=
  JObject [("status", JString "ready");
           ("solution", JObject [("hCaptchaResponse", JString token)])].

(** [strings.Contains]. *)
Fixpoint Contains (s substr : string) : bool :=
  (String.prefix substr s
   || match s with
      | EmptyString => false
      | String _ s' => Contains s' substr
      end)%bool.

(** A machine with one client in it, as [New "key"] leaves it. *)
Definition fresh_client : machine := mkMachine [VVastCap (mkVastCap "key")] [].

(** The [task] object of a request body, and its [type] member. *)
Definition task_of (req : Request) : option json :=
  Request_Body req ≫= member "task".

Definition task_type (req : Request) : option json :=
  task_of req ≫= member "type".

(** Example task descriptions; the caller has put a value of its own in
    the [Type] field of each. *)
Definition example_base : TaskBase :=
  mkTaskBase "set by the caller" "" "" "site-key" "https://example.com".

Definition example_hcaptcha : HCaptchaTask :=
  mkHCaptchaTask example_base "" false true.

(** 0.7 as a float64. *)
Definition score_0_7 : float := 0x1.6666666666666p-1%float.


(** Every cell of [m] is still there, with the same content, in [m']. *)
Definition preserves (m m' : machine) : Prop :=
  forall (l : loc) (v : value), mem m !! l = Some v -> mem m' !! l = Some v.

(** A machine in the middle of a caller: the client is at address 0, and
    the caller keeps the task description it is about to pass in a variable
    of its own, at address 1. *)
Definition caller_machine : machine :=
  mkMachine [VVastCap (mkVastCap "key"); VHCaptchaTask example_hcaptcha] [].

(** A FunCaptcha task description on which the caller has set the two
    required fields and nothing else. *)
Definition unset_funcaptcha : FunCaptchaTask :=
  mkFunCaptchaTask (mkTaskBase "" "" "" "site-key" "https://example.com")
                   (mkFunCaptchaData "" ∅).

(** The two outcomes of a create-task call that the statements single out:
    the task identifier "abc123" and no error, and an error whose text
    contains two given strings. *)
Definition returns_abc123 (run : outcome (string * option error)) : Prop :=
  exists m', run = Return ("abc123", None) m'.

Definition fails_mentioning (a b : string) (run : outcome (string * option error)) : Prop :=
  exists msg m',
    run = Return ("", Some (Errorf msg)) m'
    /\ Contains msg a = true /\ Contains msg b = true.

(** The status code of a reply that is a response. *)
Definition status (reply : Reply) : option Z :=
  match reply with
  | NoReply _ => None
  | Response code _ | Located code _ _ => Some code
  end.


(** A service that has moved: a request to the create-task URL is answered
    with the redirect [code] to the URL [new], a request to any other URL
    with [reply]. *)
Definition moved (code : Z) (new : string) (reply : Reply) : Request -> Reply :=
  fun req =>
    if String.eqb (Request_URL req) createTaskURL then Located code (Some new) None
    else reply.

(** A body with an error object whose [errorId] is any number literal. *)
Definition error_body_with (errorId : number) (errorCode errorDescription : string) : json :=
  JObject [("error", JObject [("errorId", JNumber errorId);
                              ("errorCode", JString errorCode);
                              ("errorDescription", JString errorDescription)])].

(** ** Notions used in the further properties *)

(** A service that cannot be reached: the transport fails with [cause]. *)
Definition unreachable (cause : string) : Request -> Reply :=
  fun _ => NoReply cause.

(** A service that answers every request with the status [code] and the
    body [body], which need not be JSON. *)
Definition answer (code : Z) (body : option json) : Request -> Reply :=
  fun _ => Response code body.

(** The five create-task methods called on the client at [c] in the
    machine [m], each with an arbitrary task description; [Recaptcha] with a
    minimum score the encoder accepts. *)
Definition create_calls (remote : Request -> Reply) (c : loc) (m : machine)
    (P : outcome (string * option error) -> Prop) : Prop :=
  (forall data, P (HCaptcha remote c data m))
  /\ (forall data v3,
        PrimFloat.is_finite (RecaptchaTask_MinScore data) = true ->
        P (Recaptcha remote c data v3 m))
  /\ (forall data, P (Turnstile remote c data m))
  /\ (forall data, P (FunCaptcha remote c data m))
  /\ (forall data, P (ImageToText remote c data m)).

(** A body that is JSON, but neither an object nor [null], or not JSON at
    all. *)
Definition not_an_object (body : option json) : bool :=
  match body with
  | Some (JObject _) | Some JNull => false
  | _ => true
  end.

(** Member names that select no field of the response of the create-task
    endpoint, and of the get-result endpoint. *)
Definition unknown_to_createResp (k : string) : bool :=
  (negb (field "taskId" k) && negb (field "error" k))%bool.

Definition unknown_to_TaskResult (k : string) : bool :=
  (negb (field "status" k) && negb (field "solution" k) && negb (field "error" k))%bool.

(** A member that is there when its value is. *)
Definition optional_member (k : string) (v : option json) : list (string * json) :=
  match v with
  | Some j => [(k, j)]
  | None => []
  end.

(** A [solution] object with a member for each field of [s] that is set,
    under the names of the struct tags; the score as a literal with a
    fraction or an exponent. *)
Definition solution_object (s : taskSolution) : json :=
  JObject
    (optional_member "gRecaptchaResponse" (JString <$> taskSolution_GRecaptchaResponse s)
     ++ optional_member "hCaptchaResponse" (JString <$> taskSolution_HCaptchaResponse s)
     ++ optional_member "turnstileResponse" (JString <$> taskSolution_TurnstileResponse s)
     ++ optional_member "text" (JString <$> taskSolution_Text s)
     ++ optional_member "score" ((fun f => JNumber (NFloat f)) <$> taskSolution_Score s)
     ++ optional_member "userAgent" (JString <$> taskSolution_UserAgent s)).

(** A response of the get-result endpoint without error object. *)
Definition result_body (status : string) (solution : option taskSolution) : json :=
  JObject (("status", JString status)
           :: optional_member "solution" (solution_object <$> solution)).

(** The score of a solution, when there is one, is finite. *)
Definition finite_score (solution : option taskSolution) : Prop :=
  forall s f, solution = Some s -> taskSolution_Score s = Some f ->
              PrimFloat.is_finite f = true.

(** An empty machine. *)
Definition boot : machine := mkMachine [] [].

(** What goes to the service when [req] is handed to the HTTP client: [req]
    first; then nothing but the requests by which the client follows
    redirects, at most nine, each with the body of [req] or with none; and
    nothing at all when the first reply is not a response with a
    [Location]. *)
Definition redirects_only (remote : Request -> Reply) (req : Request) : Prop :=
  exists more,
    round_trip_requests remote req = req :: more
    /\ (length more <= 9)%nat
    /\ Forall (fun r => Request_Body r = Request_Body req \/ Request_Body r = None) more
    /\ ((forall code location body, remote req <> Located code location body) ->
        more = []).

(** The three members that every task object has: the type and the two
    required fields of the embedded [TaskBase]. *)
Definition has_required (b : TaskBase) (ty : string) (task : json) : Prop :=
  member "type" task = Some (JString ty)
  /\ member "websiteKey" task = Some (JString (TaskBase_WebsiteKey b))
  /\ member "websiteURL" task = Some (JString (TaskBase_WebsiteURL b)).

(** A FunCaptcha task description with a blob and two cookies. *)
Definition example_funcaptcha : FunCaptchaTask :=
  mkFunCaptchaTask example_base
    (mkFunCaptchaData "blob" {[ "session" := "s-1"; "lang" := "en" ]}).

(** * Properties *)

(** ** Running the monad *)

Lemma bind_run {A B} (c : Go A) (f : A -> Go B) (m : machine) :
  (c ≫= f) m = match c m with Return a m' => f a m' | Panic => Panic end.
Proof. reflexivity. Qed.

Lemma ret_run {A} (a : A) (m : machine) : mret (M := Go) a m = Return a m.
Proof. reflexivity. Qed.

Lemma alloc_run {T} `{Cell T} (x : T) (m : machine) :
  alloc x m = Return (length (mem m)) (mkMachine (mem m ++ [box x]) (wire m)).
Proof. reflexivity. Qed.

Lemma load_last {T} `{Cell T} (x : T) (l : list value) (w : list Request) :
  load (length l) (mkMachine (l ++ [box x]) w) = Return x (mkMachine (l ++ [box x]) w).
Proof.
  unfold load; cbn [mem].
  rewrite list_lookup_middle by reflexivity.
  cbn. now rewrite unbox_box.
Qed.

Lemma modify_last {T} `{Cell T} (f : T -> T) (x : T) (l : list value) (w : list Request) :
  modify (length l) f (mkMachine (l ++ [box x]) w)
  = Return tt (mkMachine (l ++ [box (f x)]) w).
Proof.
  unfold modify; cbn [mem wire].
  rewrite list_lookup_middle by reflexivity.
  cbn. rewrite unbox_box.
  rewrite insert_app_r_alt by reflexivity.
  now rewrite Nat.sub_diag.
Qed.

Lemma load_old {T} `{Cell T} (x : T) (c : loc) (l l' : list value) (w : list Request) :
  l !! c = Some (box x) ->
  load c (mkMachine (l ++ l') w) = Return x (mkMachine (l ++ l') w).
Proof.
  intros Hc. unfold load; cbn [mem].
  rewrite (lookup_app_l_Some _ _ _ _ Hc).
  cbn. now rewrite unbox_box.
Qed.

Lemma load_here {T} `{Cell T} (x : T) (c : loc) (m : machine) :
  mem m !! c = Some (box x) -> load c m = Return x m.
Proof. intros Hc. unfold load. rewrite Hc. cbn. now rewrite unbox_box. Qed.

(** ** The request bodies *)

Lemma sorted_entries_task {A} (a b : A) :
  sorted_entries ({[ "clientKey" := a; "task" := b ]} : gmap string A)
  = [("clientKey", a); ("task", b)].
Proof. vm_compute. reflexivity. Qed.

Lemma sorted_entries_taskId {A} (a b : A) :
  sorted_entries ({[ "clientKey" := a; "taskId" := b ]} : gmap string A)
  = [("clientKey", a); ("taskId", b)].
Proof. vm_compute. reflexivity. Qed.

Lemma MarshalMap_task (key : string) (task : value) :
  MarshalMap {[ "clientKey" := VString key; "task" := task ]}
  = (j ← Marshal task; Some (JObject [("clientKey", JString key); ("task", j)])).
Proof.
  unfold MarshalMap. rewrite sorted_entries_task. cbn.
  destruct (Marshal task); reflexivity.
Qed.

Lemma MarshalMap_taskId (key taskID : string) :
  MarshalMap {[ "clientKey" := VString key; "taskId" := VString taskID ]}
  = Some (JObject [("clientKey", JString key); ("taskId", JString taskID)]).
Proof. unfold MarshalMap. rewrite sorted_entries_taskId. reflexivity. Qed.

(** ** The HTTP client *)

(** A reply without [Location] ends the exchange at once. *)
Lemma round_trips_direct (remote : Request -> Reply) (allowed : nat) (ireq req : Request) :
  match remote req with Located _ _ _ => False | _ => True end ->
  round_trips remote allowed ireq req = ([req], remote req).
Proof. destruct allowed; cbn [round_trips]; destruct (remote req); easy. Qed.

Lemma Client_Do_direct (remote : Request -> Reply) (req : Request) :
  match remote req with Located _ _ _ => False | _ => True end ->
  Client_Do remote req = remote req.
Proof. intros H. unfold Client_Do. now rewrite round_trips_direct. Qed.

Lemma Client_Do_Response (remote : Request -> Reply) (req : Request)
    (code : Z) (body : option json) :
  remote req = Response code body -> Client_Do remote req = Response code body.
Proof. intros H. rewrite Client_Do_direct; rewrite H; easy. Qed.

(** The first request is the one handed over; the others, if any, follow
    redirects. *)
Lemma round_trips_requests (remote : Request -> Reply) (allowed : nat) (ireq req : Request) :
  exists more,
    fst (round_trips remote allowed ireq req) = req :: more
    /\ (length more <= allowed)%nat
    /\ Forall (fun r => Request_Body r = Request_Body ireq \/ Request_Body r = None) more.
Proof.
  revert req. induction allowed as [|allowed IH]; intros req; cbn [round_trips].
  - exists []. split; [|split; [reflexivity|constructor]].
    destruct (remote req) as [cause|code body|code [u|] body]; try reflexivity;
      destruct (redirectBehavior _ _) as [[method includeBody]|]; reflexivity.
  - destruct (remote req) as [cause|code body|code [u|] body];
      try (exists []; split; [reflexivity|split; [cbn; lia|constructor]]);
      destruct (redirectBehavior _ _) as [[method includeBody]|];
      try (exists []; split; [reflexivity|split; [cbn; lia|constructor]]).
    destruct (IH (mkRequest method u (if includeBody then Request_Body ireq else None)))
      as (more & Hmore & Hlen & Hbodies).
    destruct (round_trips remote allowed ireq _) as [sent reply].
    cbn [fst] in Hmore |- *. subst sent. eexists. split; [reflexivity|].
    split; [cbn [length]; lia|].
    constructor; [|exact Hbodies].
    cbn [Request_Body]. destruct includeBody; [now left|now right].
Qed.

Lemma redirects_only_intro (remote : Request -> Reply) (req : Request) :
  redirects_only remote req.
Proof.
  unfold redirects_only, round_trip_requests.
  destruct (round_trips_requests remote 9 req req) as (more & Hmore & Hlen & Hbodies).
  exists more. repeat split; try assumption.
  intros Hdirect. rewrite round_trips_direct in Hmore.
  - cbn [fst] in Hmore. now injection Hmore as <-.
  - destruct (remote req) as [cause|code body|code location body]; try exact I.
    now destruct (Hdirect code location body).
Qed.

(** ** What each method does, in one equation *)

Section Runs.

Variable remote : Request -> Reply.
Variables (m : machine) (c : loc) (this : VastCap).
Hypothesis receiver : mem m !! c = Some (VVastCap this).

Lemma Fetch_createTask (task : value) (j : json) (m' : machine) :
  Marshal task = Some j ->
  (Fetch remote
     (CheckStatus [StatusOK]
        (ToJSON createResp_zero
           (BodyJSON {[ "clientKey" := VString (VastCap_APIKey this); "task" := task ]}
              (URL createTaskURL)))) ≫=
   (fun '(err, resp) =>
      match err with
      | Some e => mret ("", Some e)
      | None =>
          match createResp_Error resp with
          | Some e =>
              mret ("", Some (Errorf ("vastcap error: " +:+ apiError_ErrorDescription e
                                      +:+ " (" +:+ apiError_ErrorCode e +:+ ")")))
          | None => mret (createResp_TaskID resp, None)
          end
      end)) m'
  = Return (createTask_result (Client_Do remote (createTask_request (VastCap_APIKey this) j)))
           (mkMachine (mem m') (wire m' ++ [createTask_request (VastCap_APIKey this) j])).
Proof.
  intros Hj. rewrite bind_run.
  unfold Fetch, build, accepted, CheckStatus, ToJSON, BodyJSON, URL;
    cbn [rb_body rb_validators rb_url rb_dest rb_handler app].
  rewrite MarshalMap_task, Hj. cbn [mbind option_bind].
  rewrite bind_run. unfold send; cbn [mem wire].
  fold (createTask_request (VastCap_APIKey this) j).
  destruct (Client_Do remote _) as [cause|code body|code location body]; [reflexivity| |];
    unfold createTask_result, StatusOK; cbn [forallb existsb];
    rewrite orb_false_r, andb_true_r;
    (destruct (code =? 200); cbn [negb]; [|reflexivity]);
    (destruct (body ≫= _) as [resp|]; [|reflexivity]);
    rewrite ret_run; destruct (createResp_Error resp); reflexivity.
Qed.

Lemma HCaptcha_run (data : HCaptchaTask) :
  let task := HCaptchaTask_set_Type "HCaptchaTask" data in
  let req := createTask_request (VastCap_APIKey this) (JObject (HCaptchaTask_members task)) in
  HCaptcha remote c data m
  = Return (createTask_result (Client_Do remote req))
           (mkMachine (mem m ++ [VHCaptchaTask task]) (wire m ++ [req])).
Proof.
  intros task req. unfold HCaptcha.
  rewrite bind_run, alloc_run.
  rewrite bind_run, (modify_last (T := HCaptchaTask)).
  rewrite bind_run, (load_old this) by exact receiver.
  rewrite bind_run, (load_last (T := HCaptchaTask)).
  now rewrite (Fetch_createTask _ (JObject (HCaptchaTask_members task))).
Qed.

Lemma Fetch_createTask_unsupported (task : value) (m' : machine) :
  Marshal task = None ->
  (Fetch remote
     (CheckStatus [StatusOK]
        (ToJSON createResp_zero
           (BodyJSON {[ "clientKey" := VString (VastCap_APIKey this); "task" := task ]}
              (URL createTaskURL)))) ≫=
   (fun '(err, resp) =>
      match err with
      | Some e => mret ("", Some e)
      | None =>
          match createResp_Error resp with
          | Some e =>
              mret ("", Some (Errorf ("vastcap error: " +:+ apiError_ErrorDescription e
                                      +:+ " (" +:+ apiError_ErrorCode e +:+ ")")))
          | None => mret (createResp_TaskID resp, None)
          end
      end)) m'
  = Return ("", Some ErrRequest) m'.
Proof.
  intros Hj. rewrite bind_run.
  unfold Fetch, build, CheckStatus, ToJSON, BodyJSON, URL; cbn [rb_body].
  now rewrite MarshalMap_task, Hj.
Qed.

Lemma Recaptcha_run (data : RecaptchaTask) (v3 : bool) :
  let task := RecaptchaTask_set_Type
                (if v3 then "RecaptchaV3Task" else "RecaptchaV2Task") data in
  Recaptcha remote c data v3 m
  = match RecaptchaTask_members task with
    | Some ms =>
        let req := createTask_request (VastCap_APIKey this) (JObject ms) in
        Return (createTask_result (Client_Do remote req))
               (mkMachine (mem m ++ [VRecaptchaTask task]) (wire m ++ [req]))
    | None =>
        Return ("", Some ErrRequest) (mkMachine (mem m ++ [VRecaptchaTask task]) (wire m))
    end.
Proof.
  intros task. unfold Recaptcha.
  rewrite bind_run, alloc_run.
  rewrite bind_run, (modify_last (T := RecaptchaTask)).
  assert (Hsel : ((if v3 then modify (length (mem m)) (RecaptchaTask_set_Type "RecaptchaV3Task")
                   else mret tt)
                  (mkMachine (mem m ++ [box (RecaptchaTask_set_Type "RecaptchaV2Task" data)])
                             (wire m)))
                 = Return tt (mkMachine (mem m ++ [box task]) (wire m))).
  { subst task. destruct v3; [now rewrite (modify_last (T := RecaptchaTask))|reflexivity]. }
  rewrite bind_run, Hsel.
  rewrite bind_run, (load_old this) by exact receiver.
  rewrite bind_run, (load_last (T := RecaptchaTask)).
  destruct (RecaptchaTask_members task) as [ms|] eqn:Hms.
  - rewrite (Fetch_createTask _ (JObject ms)); [reflexivity|].
    cbn. now rewrite Hms.
  - rewrite Fetch_createTask_unsupported; [reflexivity|].
    cbn. now rewrite Hms.
Qed.

Lemma Turnstile_run (data : TurnstileTask) :
  let task := TurnstileTask_set_Type "TurnstileTask" data in
  let req := createTask_request (VastCap_APIKey this) (JObject (TurnstileTask_members task)) in
  Turnstile remote c data m
  = Return (createTask_result (Client_Do remote req))
           (mkMachine (mem m ++ [VTurnstileTask task]) (wire m ++ [req])).
Proof.
  intros task req. unfold Turnstile.
  rewrite bind_run, alloc_run.
  rewrite bind_run, (modify_last (T := TurnstileTask)).
  rewrite bind_run, (load_old this) by exact receiver.
  rewrite bind_run, (load_last (T := TurnstileTask)).
  now rewrite (Fetch_createTask _ (JObject (TurnstileTask_members task))).
Qed.

Lemma FunCaptcha_run (data : FunCaptchaTask) :
  let task := FunCaptchaTask_set_Type "FunCaptchaTask" data in
  let req := createTask_request (VastCap_APIKey this) (JObject (FunCaptchaTask_members task)) in
  FunCaptcha remote c data m
  = Return (createTask_result (Client_Do remote req))
           (mkMachine (mem m ++ [VFunCaptchaTask task]) (wire m ++ [req])).
Proof.
  intros task req. unfold FunCaptcha.
  rewrite bind_run, alloc_run.
  rewrite bind_run, (modify_last (T := FunCaptchaTask)).
  rewrite bind_run, (load_old this) by exact receiver.
  rewrite bind_run, (load_last (T := FunCaptchaTask)).
  now rewrite (Fetch_createTask _ (JObject (FunCaptchaTask_members task))).
Qed.

Lemma ImageToText_run (data : TaskBase) :
  let task := TaskBase_set_Type "ImageToTextTask" data in
  let req := createTask_request (VastCap_APIKey this) (JObject (TaskBase_members task)) in
  ImageToText remote c data m
  = Return (createTask_result (Client_Do remote req))
           (mkMachine (mem m ++ [VTaskBase task]) (wire m ++ [req])).
Proof.
  intros task req. unfold ImageToText.
  rewrite bind_run, alloc_run.
  rewrite bind_run, (modify_last (T := TaskBase)).
  rewrite bind_run, (load_old this) by exact receiver.
  rewrite bind_run, (load_last (T := TaskBase)).
  now rewrite (Fetch_createTask _ (JObject (TaskBase_members task))).
Qed.

Lemma GetResult_run (taskID : string) :
  let req := getTaskResult_request (VastCap_APIKey this) taskID in
  GetResult remote c taskID m
  = Return (getTaskResult_result (Client_Do remote req))
           (mkMachine (mem m) (wire m ++ [req])).
Proof.
  intros req. unfold GetResult.
  rewrite bind_run, (load_here this) by exact receiver.
  rewrite bind_run.
  unfold Fetch, build, accepted, CheckStatus, ToJSON, BodyJSON, URL;
    cbn [rb_body rb_validators rb_url rb_dest rb_handler app].
  rewrite MarshalMap_taskId. cbn [mbind option_bind].
  rewrite bind_run. unfold send; cbn [mem wire].
  fold (getTaskResult_request (VastCap_APIKey this) taskID). fold req.
  destruct (Client_Do remote req) as [cause|code body|code location body]; [reflexivity| |];
    unfold getTaskResult_result, StatusOK; cbn [forallb existsb];
    rewrite orb_false_r, andb_true_r;
    (destruct (code =? 200); cbn [negb]; [|reflexivity]);
    (destruct (body ≫= _) as [resp|]; [|reflexivity]);
    rewrite ret_run; destruct (TaskResult_Error resp); reflexivity.
Qed.

End Runs.

(** Rewrite a call of a method on a valid receiver with its equation. *)
Ltac run Hc :=
  rewrite ?(HCaptcha_run _ _ _ _ Hc), ?(Recaptcha_run _ _ _ _ Hc),
          ?(Turnstile_run _ _ _ _ Hc), ?(FunCaptcha_run _ _ _ _ Hc),
          ?(ImageToText_run _ _ _ _ Hc), ?(GetResult_run _ _ _ _ Hc);
  rewrite ?Client_Do_direct by exact I.

(** The same rewriting of the client once the request is in sight. *)
Ltac direct := rewrite ?Client_Do_direct by exact I.

(** ** GetResult on the two documented responses *)

(** C6: [GetResult], given the response [{"status": "processing"}] with HTTP
    200, returns a [TaskResult] with status "processing" and neither
    solution nor error, and no Go error; given [{"status": "ready",
    "solution": {"hCaptchaResponse": "tok"}}] it returns a [TaskResult]
    whose solution has [hCaptchaResponse] equal to "tok". *)
Theorem GetResult_processing_and_ready (m : machine) (c : loc) (this : VastCap)
    (taskID : string) :
  mem m !! c = Some (VVastCap this) ->
  (exists m',
     GetResult (mock 200 processing_body) c taskID m
     = Return (mkTaskResult "processing" None None, None) m')
  /\ (exists r m',
        GetResult (mock 200 (ready_body "tok")) c taskID m = Return (r, None) m'
        /\ TaskResult_Status r = "ready"
        /\ TaskResult_Solution r ≫= taskSolution_HCaptchaResponse = Some "tok").
Proof.
  intros Hc. split.
  - eexists. run Hc. reflexivity.
  - do 2 eexists. run Hc. cbn. repeat split.
Qed.

Lemma GetResult_processing_and_ready_witness :
  (exists m',
     GetResult (mock 200 processing_body) 0%nat "task-1" fresh_client
     = Return (mkTaskResult "processing" None None, None) m')
  /\ (exists r m',
        GetResult (mock 200 (ready_body "tok")) 0%nat "task-1" fresh_client = Return (r, None) m'
        /\ TaskResult_Status r = "ready"
        /\ TaskResult_Solution r ≫= taskSolution_HCaptchaResponse = Some "tok").
Proof.
  apply (GetResult_processing_and_ready fresh_client 0%nat (mkVastCap "key") "task-1").
  reflexivity.
Defined.

(** ** The type discriminator *)

(** C1: every create-task method sends a request whose [task.type] is the
    fixed discriminator of the method: "HCaptchaTask" for [HCaptcha],
    "RecaptchaV3Task" or "RecaptchaV2Task" for [Recaptcha] according to the
    v3 flag, "TurnstileTask", "FunCaptchaTask" and "ImageToTextTask" for the
    others.  The task description is arbitrary, so whatever the caller had
    put in its [Type] field is overwritten.  ([Recaptcha] sends nothing at
    all when the minimum score is a NaN or an infinity, which the encoder
    refuses.) *)
Theorem task_type_is_the_discriminator
    (remote : Request -> Reply) (m : machine) (c : loc) (this : VastCap) :
  mem m !! c = Some (VVastCap this) ->
  (forall data, exists r m' req,
      HCaptcha remote c data m = Return r m'
      /\ wire m' = wire m ++ [req]
      /\ task_type req = Some (JString "HCaptchaTask"))
  /\ (forall data v3, exists r m',
      Recaptcha remote c data v3 m = Return r m'
      /\ ((exists req,
             wire m' = wire m ++ [req]
             /\ task_type req
                = Some (JString (if v3 then "RecaptchaV3Task" else "RecaptchaV2Task")))
          \/ (wire m' = wire m
              /\ PrimFloat.is_finite (RecaptchaTask_MinScore data) = false)))
  /\ (forall data, exists r m' req,
      Turnstile remote c data m = Return r m'
      /\ wire m' = wire m ++ [req]
      /\ task_type req = Some (JString "TurnstileTask"))
  /\ (forall data, exists r m' req,
      FunCaptcha remote c data m = Return r m'
      /\ wire m' = wire m ++ [req]
      /\ task_type req = Some (JString "FunCaptchaTask"))
  /\ (forall data, exists r m' req,
      ImageToText remote c data m = Return r m'
      /\ wire m' = wire m ++ [req]
      /\ task_type req = Some (JString "ImageToTextTask")).
Proof.
  intros Hc. repeat split.
  - intros data. do 3 eexists. run Hc. repeat split.
  - intros data v3. run Hc.
    unfold RecaptchaTask_members, float64_member; cbn [RecaptchaTask_set_Type RecaptchaTask_MinScore].
    destruct (PrimFloat.is_zero (RecaptchaTask_MinScore data)).
    + do 2 eexists. split; [reflexivity|]. left. eexists. split; [reflexivity|].
      destruct v3; reflexivity.
    + destruct (PrimFloat.is_finite (RecaptchaTask_MinScore data)).
      * do 2 eexists. split; [reflexivity|]. left. eexists. split; [reflexivity|].
        destruct v3; reflexivity.
      * do 2 eexists. split; [reflexivity|]. right. split; reflexivity.
  - intros data. do 3 eexists. run Hc. repeat split.
  - intros data. do 3 eexists. run Hc. repeat split.
  - intros data. do 3 eexists. run Hc. repeat split.
Qed.

Lemma task_type_is_the_discriminator_witness :
  exists r m' req,
    HCaptcha (mock 200 (taskId_body "abc123")) 0%nat example_hcaptcha fresh_client
    = Return r m'
    /\ wire m' = wire fresh_client ++ [req]
    /\ task_type req = Some (JString "HCaptchaTask").
Proof.
  apply (task_type_is_the_discriminator
           (mock 200 (taskId_body "abc123")) fresh_client 0%nat (mkVastCap "key")).
  reflexivity.
Defined.

(** ** The request body *)

Lemma New_run (apiKey : string) (m0 : machine) :
  New apiKey m0
  = Return (length (mem m0)) (mkMachine (mem m0 ++ [VVastCap (mkVastCap apiKey)]) (wire m0)).
Proof. reflexivity. Qed.

(** [New] stores the key as it is given, in a new cell, and sends nothing. *)
Lemma New_stores_the_key (apiKey : string) (m0 : machine) :
  exists c m,
    New apiKey m0 = Return c m
    /\ mem m !! c = Some (VVastCap (mkVastCap apiKey))
    /\ preserves m0 m
    /\ wire m = wire m0.
Proof.
  do 2 eexists. rewrite New_run. split; [reflexivity|]. cbn [mem wire].
  split; [now apply list_lookup_middle|].
  split; [|reflexivity]. intros l v Hl. now apply lookup_app_l_Some.
Qed.

(** C7: every method sends a JSON object with exactly two members:
    [clientKey], holding the API key of the client (the one [New] stored,
    see [New_stores_the_key]), and then [task] with the encoded task (whose
    type has been set) for the five create-task methods, or [taskId] with
    the task identifier for [GetResult].  ([Recaptcha] sends nothing when
    the encoder refuses the minimum score.) *)
Theorem request_body_has_two_members
    (remote : Request -> Reply) (m : machine) (c : loc) (this : VastCap) :
  mem m !! c = Some (VVastCap this) ->
  let clientKey := ("clientKey", JString (VastCap_APIKey this)) in
  (forall data, exists r m' req,
      HCaptcha remote c data m = Return r m'
      /\ wire m' = wire m ++ [req]
      /\ Request_Body req
         = Some (JObject
             [clientKey;
              ("task", JObject (HCaptchaTask_members
                                  (HCaptchaTask_set_Type "HCaptchaTask" data)))]))
  /\ (forall data v3, exists r m',
      Recaptcha remote c data v3 m = Return r m'
      /\ ((exists req task,
             wire m' = wire m ++ [req]
             /\ RecaptchaTask_members
                  (RecaptchaTask_set_Type
                     (if v3 then "RecaptchaV3Task" else "RecaptchaV2Task") data)
                = Some task
             /\ Request_Body req = Some (JObject [clientKey; ("task", JObject task)]))
          \/ (wire m' = wire m
              /\ PrimFloat.is_finite (RecaptchaTask_MinScore data) = false)))
  /\ (forall data, exists r m' req,
      Turnstile remote c data m = Return r m'
      /\ wire m' = wire m ++ [req]
      /\ Request_Body req
         = Some (JObject
             [clientKey;
              ("task", JObject (TurnstileTask_members
                                  (TurnstileTask_set_Type "TurnstileTask" data)))]))
  /\ (forall data, exists r m' req,
      FunCaptcha remote c data m = Return r m'
      /\ wire m' = wire m ++ [req]
      /\ Request_Body req
         = Some (JObject
             [clientKey;
              ("task", JObject (FunCaptchaTask_members
                                  (FunCaptchaTask_set_Type "FunCaptchaTask" data)))]))
  /\ (forall data, exists r m' req,
      ImageToText remote c data m = Return r m'
      /\ wire m' = wire m ++ [req]
      /\ Request_Body req
         = Some (JObject
             [clientKey;
              ("task", JObject (TaskBase_members
                                  (TaskBase_set_Type "ImageToTextTask" data)))]))
  /\ (forall taskID, exists r m' req,
      GetResult remote c taskID m = Return r m'
      /\ wire m' = wire m ++ [req]
      /\ Request_Body req = Some (JObject [clientKey; ("taskId", JString taskID)])).
Proof.
  intros Hc clientKey. repeat apply conj.
  - intros data. do 3 eexists. run Hc. repeat split.
  - intros data v3. run Hc.
    destruct (RecaptchaTask_members _) as [ms|] eqn:Hms.
    + do 2 eexists. split; [reflexivity|]. left.
      exists (createTask_request (VastCap_APIKey this) (JObject ms)), ms.
      repeat split.
    + do 2 eexists. split; [reflexivity|]. right. split; [reflexivity|].
      revert Hms. unfold RecaptchaTask_members, float64_member;
        cbn [RecaptchaTask_set_Type RecaptchaTask_MinScore].
      destruct (PrimFloat.is_zero _); [discriminate|].
      destruct (PrimFloat.is_finite _); [discriminate|reflexivity].
  - intros data. do 3 eexists. run Hc. repeat split.
  - intros data. do 3 eexists. run Hc. repeat split.
  - intros data. do 3 eexists. run Hc. repeat split.
  - intros taskID. do 3 eexists. run Hc. repeat split.
Qed.

Lemma request_body_has_two_members_witness :
  exists r m' req,
    GetResult (mock 200 processing_body) 0%nat "task-1" fresh_client = Return r m'
    /\ wire m' = wire fresh_client ++ [req]
    /\ Request_Body req
       = Some (JObject [("clientKey", JString "key"); ("taskId", JString "task-1")]).
Proof.
  apply (request_body_has_two_members (mock 200 processing_body) fresh_client 0%nat
           (mkVastCap "key")).
  reflexivity.
Defined.

(** ** No method writes to memory the caller can see *)

Lemma preserves_app (m m' : machine) (cells : list value) :
  mem m' = mem m ++ cells -> preserves m m'.
Proof.
  intros Hm l v Hl. rewrite Hm. now apply lookup_app_l_Some.
Qed.

(** C9: no method changes a cell that existed before the call.  The client
    behind the receiver keeps its API key, and a variable in which the
    caller holds the task description it passed keeps its content, its
    [Type] field included: the assignment of the discriminator goes to the
    callee's copy, which is a new cell.  [GetResult] leaves the memory as it
    is. *)
Theorem calls_preserve_memory
    (remote : Request -> Reply) (m : machine) (c : loc) (this : VastCap) :
  mem m !! c = Some (VVastCap this) ->
  (forall data, exists r m',
      HCaptcha remote c data m = Return r m'
      /\ preserves m m' /\ mem m' !! c = Some (VVastCap this))
  /\ (forall data v3, exists r m',
      Recaptcha remote c data v3 m = Return r m'
      /\ preserves m m' /\ mem m' !! c = Some (VVastCap this))
  /\ (forall data, exists r m',
      Turnstile remote c data m = Return r m'
      /\ preserves m m' /\ mem m' !! c = Some (VVastCap this))
  /\ (forall data, exists r m',
      FunCaptcha remote c data m = Return r m'
      /\ preserves m m' /\ mem m' !! c = Some (VVastCap this))
  /\ (forall data, exists r m',
      ImageToText remote c data m = Return r m'
      /\ preserves m m' /\ mem m' !! c = Some (VVastCap this))
  /\ (forall taskID, exists r m',
      GetResult remote c taskID m = Return r m'
      /\ mem m' = mem m).
Proof.
  intros Hc.
  assert (Hkeep : forall m' cells, mem m' = mem m ++ cells ->
                  preserves m m' /\ mem m' !! c = Some (VVastCap this)).
  { intros m' cells Hm. pose proof (preserves_app _ _ _ Hm) as Hp.
    split; [exact Hp|]. now apply Hp. }
  repeat apply conj.
  - intros data. do 2 eexists. run Hc.
    split; [reflexivity|]. now eapply Hkeep.
  - intros data v3. run Hc.
    destruct (RecaptchaTask_members _); do 2 eexists;
      (split; [reflexivity|]); now eapply Hkeep.
  - intros data. do 2 eexists. run Hc.
    split; [reflexivity|]. now eapply Hkeep.
  - intros data. do 2 eexists. run Hc.
    split; [reflexivity|]. now eapply Hkeep.
  - intros data. do 2 eexists. run Hc.
    split; [reflexivity|]. now eapply Hkeep.
  - intros taskID. do 2 eexists. run Hc.
    split; reflexivity.
Qed.

Lemma calls_preserve_memory_witness :
  exists r m',
    HCaptcha (mock 200 (taskId_body "abc123")) 0%nat example_hcaptcha caller_machine
    = Return r m'
    /\ preserves caller_machine m'
    /\ mem m' !! 0%nat = Some (VVastCap (mkVastCap "key")).
Proof.
  apply (calls_preserve_memory
           (mock 200 (taskId_body "abc123")) caller_machine 0%nat (mkVastCap "key")).
  reflexivity.
Defined.

(** The memory after [HCaptcha] has been called from [caller_machine]: the
    caller's variable still holds the type the caller wrote; the
    discriminator is in the callee's copy. *)
Example caller_keeps_its_task :
  exists r w,
    HCaptcha (mock 200 (taskId_body "abc123")) 0%nat example_hcaptcha caller_machine
    = Return r (mkMachine
                  [VVastCap (mkVastCap "key");
                   VHCaptchaTask example_hcaptcha;
                   VHCaptchaTask (HCaptchaTask_set_Type "HCaptchaTask" example_hcaptcha)]
                  w)
    /\ TaskBase_Type (HCaptchaTask_TaskBase example_hcaptcha) = "set by the caller".
Proof.
  do 2 eexists.
  rewrite (HCaptcha_run _ caller_machine 0%nat (mkVastCap "key") eq_refl).
  split; reflexivity.
Qed.

(** ** Replies with a status other than 200 *)

Lemma createTask_result_status (code : Z) (body : option json) :
  code <> 200 -> createTask_result (Response code body) = ("", Some (ErrValidator code)).
Proof.
  intros Hcode. unfold createTask_result.
  destruct (Z.eqb_spec code 200); [contradiction|reflexivity].
Qed.

Lemma getTaskResult_result_status (code : Z) (body : option json) :
  code <> 200 ->
  getTaskResult_result (Response code body) = (TaskResult_zero, Some (ErrValidator code)).
Proof.
  intros Hcode. unfold getTaskResult_result.
  destruct (Z.eqb_spec code 200); [contradiction|reflexivity].
Qed.






(** ** Error objects of the service *)

Lemma prefix_append (s t : string) : String.prefix s (s +:+ t) = true.
Proof.
  induction s as [|a s IH].
  - now destruct t.
  - change (String a s +:+ t) with (String a (s +:+ t)).
    change ((if ascii_dec a a then String.prefix s (s +:+ t) else false) = true).
    destruct (ascii_dec a a); [exact IH|contradiction].
Qed.

Lemma Contains_unfold (s substr : string) :
  Contains s substr
  = (String.prefix substr s
     || match s with
        | EmptyString => false
        | String _ s' => Contains s' substr
        end)%bool.
Proof. destruct s; reflexivity. Qed.

Lemma Contains_append (a substr b : string) :
  Contains (a +:+ substr +:+ b) substr = true.
Proof.
  induction a as [|ch a IH].
  - change ("" +:+ substr +:+ b) with (substr +:+ b).
    rewrite Contains_unfold. now rewrite prefix_append.
  - change (String ch a +:+ substr +:+ b) with (String ch (a +:+ substr +:+ b)).
    rewrite Contains_unfold, IH. apply orb_true_r.
Qed.

Lemma append_assoc (a b c : string) : (a +:+ b) +:+ c = a +:+ b +:+ c.
Proof.
  induction a as [|ch a IH]; [reflexivity|].
  change (String ch ((a +:+ b) +:+ c) = String ch (a +:+ b +:+ c)).
  now rewrite IH.
Qed.

Lemma error_message_contains (e : apiError) :
  Contains (error_message e) (apiError_ErrorDescription e) = true
  /\ Contains (error_message e) (apiError_ErrorCode e) = true.
Proof.
  unfold error_message. split.
  - apply Contains_append.
  - rewrite <- (append_assoc (apiError_ErrorDescription e) " (").
    rewrite <- (append_assoc "vastcap error: ").
    apply Contains_append.
Qed.

Lemma createTask_result_api_error (body : json) (resp : createResp) (e : apiError)
    (req : Request) :
  Unmarshal body createResp_zero = Some resp ->
  createResp_Error resp = Some e ->
  createTask_result (mock 200 body req) = ("", Some (Errorf (error_message e))).
Proof.
  intros Hresp He. unfold createTask_result, mock. cbn [Z.eqb Pos.eqb mbind option_bind].
  now rewrite Hresp, He.
Qed.

Lemma getTaskResult_result_api_error (body : json) (resp : TaskResult) (e : apiError)
    (req : Request) :
  Unmarshal body TaskResult_zero = Some resp ->
  TaskResult_Error resp = Some e ->
  getTaskResult_result (mock 200 body req) = (TaskResult_zero, Some (Errorf (error_message e))).
Proof.
  intros Hresp He. unfold getTaskResult_result, mock. cbn [Z.eqb Pos.eqb mbind option_bind].
  now rewrite Hresp, He.
Qed.

(** C2, as the code has it: when a call gets HTTP 200 and a body that
    decodes to a response with a non-null error object, the method returns
    the error [fmt.Errorf] makes of "vastcap error: ", the [errorDescription],
    " (", the [errorCode] and ")": its message contains the description and
    the code.  The message is all that the error holds; the [errorId] of the
    object has no part in it, so that two error objects with the same
    description and code give the same error. *)
Theorem api_error_object_becomes_a_message
    (m : machine) (c : loc) (this : VastCap) (body : json) (e : apiError) :
  mem m !! c = Some (VVastCap this) ->
  let failed := Some (Errorf (error_message e)) in
  Contains (error_message e) (apiError_ErrorDescription e) = true
  /\ Contains (error_message e) (apiError_ErrorCode e) = true
  /\ (forall e', apiError_ErrorDescription e' = apiError_ErrorDescription e ->
                 apiError_ErrorCode e' = apiError_ErrorCode e ->
                 Errorf (error_message e') = Errorf (error_message e))
  /\ (forall resp,
        Unmarshal body createResp_zero = Some resp ->
        createResp_Error resp = Some e ->
        (forall data, exists m',
            HCaptcha (mock 200 body) c data m = Return ("", failed) m')
        /\ (forall data v3,
            PrimFloat.is_finite (RecaptchaTask_MinScore data) = true ->
            exists m', Recaptcha (mock 200 body) c data v3 m = Return ("", failed) m')
        /\ (forall data, exists m',
            Turnstile (mock 200 body) c data m = Return ("", failed) m')
        /\ (forall data, exists m',
            FunCaptcha (mock 200 body) c data m = Return ("", failed) m')
        /\ (forall data, exists m',
            ImageToText (mock 200 body) c data m = Return ("", failed) m'))
  /\ (forall resp,
        Unmarshal body TaskResult_zero = Some resp ->
        TaskResult_Error resp = Some e ->
        forall taskID, exists m',
          GetResult (mock 200 body) c taskID m = Return (TaskResult_zero, failed) m').
Proof.
  intros Hc failed.
  split; [apply error_message_contains|].
  split; [apply error_message_contains|].
  split; [intros e' Hd He; unfold error_message; now rewrite Hd, He|].
  split.
  - intros resp Hresp He. repeat apply conj.
    + intros data. eexists. run Hc.
      now rewrite (createTask_result_api_error _ _ _ _ Hresp He).
    + intros data v3 Hfin. run Hc.
      unfold RecaptchaTask_members, float64_member;
        cbn [RecaptchaTask_set_Type RecaptchaTask_MinScore].
      rewrite Hfin.
      destruct (PrimFloat.is_zero _); cbn [mbind option_bind]; eexists; cbv zeta; direct;
        now rewrite (createTask_result_api_error _ _ _ _ Hresp He).
    + intros data. eexists. run Hc.
      now rewrite (createTask_result_api_error _ _ _ _ Hresp He).
    + intros data. eexists. run Hc.
      now rewrite (createTask_result_api_error _ _ _ _ Hresp He).
    + intros data. eexists. run Hc.
      now rewrite (createTask_result_api_error _ _ _ _ Hresp He).
  - intros resp Hresp He taskID. eexists. run Hc.
    now rewrite (getTaskResult_result_api_error _ _ _ _ Hresp He).
Qed.

Lemma api_error_object_becomes_a_message_witness :
  exists m',
    GetResult (mock 200 (error_body 1 "KEY_INVALID" "bad key")) 0%nat "task-1" fresh_client
    = Return (TaskResult_zero, Some (Errorf "vastcap error: bad key (KEY_INVALID)")) m'.
Proof.
  destruct (api_error_object_becomes_a_message
              fresh_client 0%nat (mkVastCap "key")
              (error_body 1 "KEY_INVALID" "bad key")
              (mkApiError 1 "KEY_INVALID" "bad key") eq_refl)
    as (_ & _ & _ & _ & H).
  exact (H (mkTaskResult "" None (Some (mkApiError 1 "KEY_INVALID" "bad key")))
           eq_refl eq_refl "task-1").
Defined.

(** C2, as the specification has it, fails: the [errorId] cannot be read
    off the error a method returns.  [HCaptcha] returns one and the same
    error for the error objects with [errorId] 1 and 2. *)
Lemma errorId_is_not_preserved :
  ~ (exists errorId_of : error -> Z,
       forall (id : N) (e : error) (m' : machine),
         HCaptcha (mock 200 (error_body id "KEY_INVALID" "bad key")) 0%nat
                  example_hcaptcha fresh_client
         = Return ("", Some e) m' ->
         errorId_of e = Z.of_N id).
Proof.
  intros [errorId_of H].
  assert (R : forall id : N, id = 1%N \/ id = 2%N ->
              exists m',
                HCaptcha (mock 200 (error_body id "KEY_INVALID" "bad key")) 0%nat
                         example_hcaptcha fresh_client
                = Return ("", Some (Errorf "vastcap error: bad key (KEY_INVALID)")) m').
  { intros id [-> | ->]; eexists;
      rewrite (HCaptcha_run _ fresh_client 0%nat (mkVastCap "key") eq_refl);
      reflexivity. }
  destruct (R 1%N (or_introl eq_refl)) as [m1 R1].
  destruct (R 2%N (or_intror eq_refl)) as [m2 R2].
  apply H in R1. apply H in R2.
  rewrite R1 in R2. discriminate R2.
Qed.

(** ** The error field of the result *)

Lemma getTaskResult_result_no_error (reply : Reply) :
  TaskResult_Error (fst (getTaskResult_result reply)) = None.
Proof.
  unfold getTaskResult_result.
  destruct reply as [cause|code body|code location body]; [reflexivity| |];
    (destruct (code =? 200); [|reflexivity]);
    (destruct (body ≫= _) as [resp|]; [|reflexivity]);
    (destruct (TaskResult_Error resp) eqn:He; [reflexivity|exact He]).
Qed.

(** C10: the [TaskResult] that [GetResult] returns never has its [Error]
    field set.  When the decoded response carries a non-null error object,
    [GetResult] returns the zero [TaskResult] together with a Go error made
    of the description and the code, so the error object itself never
    reaches the caller. *)
Theorem GetResult_never_returns_the_error_object
    (remote : Request -> Reply) (m : machine) (c : loc) (this : VastCap)
    (taskID : string) :
  mem m !! c = Some (VVastCap this) ->
  exists r err m',
    GetResult remote c taskID m = Return (r, err) m'
    /\ TaskResult_Error r = None
    /\ (forall body resp e,
          remote (getTaskResult_request (VastCap_APIKey this) taskID)
          = Response 200 (Some body) ->
          Unmarshal body TaskResult_zero = Some resp ->
          TaskResult_Error resp = Some e ->
          r = TaskResult_zero /\ err = Some (Errorf (error_message e))).
Proof.
  intros Hc. run Hc. cbv zeta.
  pose proof (getTaskResult_result_no_error
                (Client_Do remote (getTaskResult_request (VastCap_APIKey this) taskID)))
    as Hnone.
  destruct (getTaskResult_result _) as [r err] eqn:Hres.
  exists r, err. eexists. split; [reflexivity|]. split; [exact Hnone|].
  intros body resp e Hreply Hresp He.
  rewrite (Client_Do_Response _ _ _ _ Hreply) in Hres. unfold getTaskResult_result in Hres.
  cbn [Z.eqb Pos.eqb mbind option_bind] in Hres.
  rewrite Hresp, He in Hres. now inversion Hres.
Qed.

Lemma GetResult_never_returns_the_error_object_witness :
  exists r err m',
    GetResult (mock 200 (error_body 1 "KEY_INVALID" "bad key")) 0%nat "task-1" fresh_client
    = Return (r, err) m'
    /\ TaskResult_Error r = None
    /\ r = TaskResult_zero
    /\ err = Some (Errorf "vastcap error: bad key (KEY_INVALID)").
Proof.
  destruct (GetResult_never_returns_the_error_object
              (mock 200 (error_body 1 "KEY_INVALID" "bad key"))
              fresh_client 0%nat (mkVastCap "key") "task-1" eq_refl)
    as (r & err & m' & Hrun & Hnone & Hfail).
  exists r, err, m'. split; [exact Hrun|]. split; [exact Hnone|].
  exact (Hfail (error_body 1 "KEY_INVALID" "bad key")
               (mkTaskResult "" None (Some (mkApiError 1 "KEY_INVALID" "bad key")))
               (mkApiError 1 "KEY_INVALID" "bad key") eq_refl eq_refl eq_refl).
Defined.

(** ** Optional fields *)

Lemma assoc_app (k : string) (l1 l2 : list (string * json)) :
  assoc k (l1 ++ l2) = match assoc k l1 with Some v => Some v | None => assoc k l2 end.
Proof.
  induction l1 as [|[k' v] l1 IH]; [reflexivity|].
  cbn. destruct (String.eqb k k'); [reflexivity|exact IH].
Qed.

(** The optional fields of the five task shapes, the [data] object of
    FunCaptcha apart, are left out of the encoded object when they are
    unset, whatever the other fields hold. *)
Lemma unset_optional_fields_are_absent :
  (forall t, TaskBase_Proxy t = "" -> assoc "proxy" (TaskBase_members t) = None)
  /\ (forall t, TaskBase_UserAgent t = "" -> assoc "userAgent" (TaskBase_members t) = None)
  /\ (forall t, HCaptchaTask_RqData t = "" -> assoc "rqdata" (HCaptchaTask_members t) = None)
  /\ (forall t, HCaptchaTask_Invisible t = false ->
                assoc "invisible" (HCaptchaTask_members t) = None)
  /\ (forall t, HCaptchaTask_Enterprise t = false ->
                assoc "enterprise" (HCaptchaTask_members t) = None)
  /\ (forall t ms, RecaptchaTask_IsInvisible t = false ->
                   RecaptchaTask_members t = Some ms -> assoc "isInvisible" ms = None)
  /\ (forall t ms, PrimFloat.is_zero (RecaptchaTask_MinScore t) = true ->
                   RecaptchaTask_members t = Some ms -> assoc "minScore" ms = None)
  /\ (forall t ms, RecaptchaTask_PageAction t = "" ->
                   RecaptchaTask_members t = Some ms -> assoc "pageAction" ms = None)
  /\ (forall t, TurnstileTask_Invisible t = false ->
                assoc "invisible" (TurnstileTask_members t) = None)
  /\ (forall d, Data_Blob d = "" -> assoc "blob" (Data_members d) = None)
  /\ (forall d, Data_CustomCookies d = ∅ -> assoc "custom_cookies" (Data_members d) = None).
Proof.
  repeat apply conj.
  - intros [ty p ua k u]; cbn; intros ->. now destruct ua.
  - intros [ty p ua k u]; cbn; intros ->. now destruct p.
  - intros [[ty p ua k u] rq inv ent]; cbn; intros ->.
    now destruct p, ua, inv, ent.
  - intros [[ty p ua k u] rq inv ent]; cbn; intros ->.
    now destruct p, ua, rq, ent.
  - intros [[ty p ua k u] rq inv ent]; cbn; intros ->.
    now destruct p, ua, rq, inv.
  - intros [[ty p ua k u] inv sc pa] ms; cbn; intros ->.
    unfold RecaptchaTask_members, float64_member;
      cbn [RecaptchaTask_MinScore RecaptchaTask_TaskBase RecaptchaTask_IsInvisible
           RecaptchaTask_PageAction].
    destruct (PrimFloat.is_zero sc); [|destruct (PrimFloat.is_finite sc)];
      cbn [mbind option_bind]; intros [= <-]; destruct p, ua, pa; reflexivity.
  - intros [[ty p ua k u] inv sc pa] ms; cbn [RecaptchaTask_MinScore]; intros Hz.
    unfold RecaptchaTask_members, float64_member;
      cbn [RecaptchaTask_MinScore RecaptchaTask_TaskBase RecaptchaTask_IsInvisible
           RecaptchaTask_PageAction].
    rewrite Hz; cbn [mbind option_bind].
    intros [= <-]; destruct p, ua, inv, pa; reflexivity.
  - intros [[ty p ua k u] inv sc pa] ms; cbn; intros ->.
    unfold RecaptchaTask_members, float64_member;
      cbn [RecaptchaTask_MinScore RecaptchaTask_TaskBase RecaptchaTask_IsInvisible
           RecaptchaTask_PageAction].
    destruct (PrimFloat.is_zero sc); [|destruct (PrimFloat.is_finite sc)];
      cbn [mbind option_bind]; intros [= <-]; destruct p, ua, inv; reflexivity.
  - intros [[ty p ua k u] inv]; cbn; intros ->. now destruct p, ua.
  - intros [blob cookies]; cbn; intros ->. unfold Data_members; cbn.
    now destruct (bool_decide _).
  - intros [blob cookies]; cbn; intros ->. unfold Data_members; cbn.
    rewrite bool_decide_eq_true_2 by reflexivity. now destruct blob.
Qed.

Lemma Data_members_unset : Data_members (mkFunCaptchaData "" ∅) = [].
Proof.
  unfold Data_members; cbn. now rewrite bool_decide_eq_true_2 by reflexivity.
Qed.

(** C3, at the input where the code departs from it: for a FunCaptcha task
    description on which only the two required fields are set, the encoded
    task has a [data] member, holding the empty object.  The [omitempty] on
    the [Data] field does not apply to a struct. *)
Theorem FunCaptcha_sends_empty_data (remote : Request -> Reply) :
  exists r m' req,
    FunCaptcha remote 0%nat unset_funcaptcha fresh_client = Return r m'
    /\ wire m' = [req]
    /\ task_of req
       = Some (JObject [("type", JString "FunCaptchaTask");
                        ("websiteKey", JString "site-key");
                        ("websiteURL", JString "https://example.com");
                        ("data", JObject [])])
    /\ (task_of req ≫= member "data") = Some (JObject []).
Proof.
  do 3 eexists.
  rewrite (FunCaptcha_run _ fresh_client 0%nat (mkVastCap "key") eq_refl).
  split; [reflexivity|]. split; [reflexivity|].
  unfold task_of, createTask_request, FunCaptchaTask_members, unset_funcaptcha.
  cbn [FunCaptchaTask_set_Type FunCaptchaTask_Data FunCaptchaTask_TaskBase].
  rewrite Data_members_unset. split; reflexivity.
Qed.

(** ** The reCAPTCHA v3 task on the wire *)

Lemma float64_member_score_0_7 :
  float64_member "minScore" score_0_7 = Some [("minScore", JNumber (NFloat score_0_7))].
Proof. vm_compute. reflexivity. Qed.

(** C8: a [RecaptchaTask] with [minScore] 0.7 and [pageAction] "login" (and
    the invisible flag left unset), submitted with the v3 flag, goes on the
    wire as a task object with exactly: [type], equal to "RecaptchaV3Task";
    the fields of the embedded [TaskBase] ([proxy] and [userAgent] when
    set, [websiteKey], [websiteURL]); [minScore], the number 0.7; and
    [pageAction], "login". *)
Theorem recaptcha_v3_task_object
    (remote : Request -> Reply) (m : machine) (c : loc) (this : VastCap)
    (base : TaskBase) :
  mem m !! c = Some (VVastCap this) ->
  exists r m' req,
    Recaptcha remote c (mkRecaptchaTask base false score_0_7 "login") true m = Return r m'
    /\ wire m' = wire m ++ [req]
    /\ task_of req
       = Some (JObject
           ([("type", JString "RecaptchaV3Task")]
            ++ (if string_empty (TaskBase_Proxy base) then []
                else [("proxy", JString (TaskBase_Proxy base))])
            ++ (if string_empty (TaskBase_UserAgent base) then []
                else [("userAgent", JString (TaskBase_UserAgent base))])
            ++ [("websiteKey", JString (TaskBase_WebsiteKey base));
                ("websiteURL", JString (TaskBase_WebsiteURL base));
                ("minScore", JNumber (NFloat score_0_7));
                ("pageAction", JString "login")])).
Proof.
  intros Hc. run Hc.
  unfold RecaptchaTask_members;
    cbn [RecaptchaTask_set_Type RecaptchaTask_MinScore RecaptchaTask_TaskBase
         RecaptchaTask_IsInvisible RecaptchaTask_PageAction].
  rewrite float64_member_score_0_7. cbn [mbind option_bind].
  do 3 eexists. split; [reflexivity|]. split; [reflexivity|].
  unfold task_of, createTask_request, TaskBase_members, omitempty.
  cbn [TaskBase_set_Type TaskBase_Type TaskBase_Proxy TaskBase_UserAgent
       TaskBase_WebsiteKey TaskBase_WebsiteURL].
  destruct (string_empty (TaskBase_Proxy base)),
           (string_empty (TaskBase_UserAgent base)); reflexivity.
Qed.

Lemma recaptcha_v3_task_object_witness :
  exists r m' req,
    Recaptcha (mock 200 (taskId_body "abc123")) 0%nat
              (mkRecaptchaTask example_base false score_0_7 "login") true fresh_client
    = Return r m'
    /\ wire m' = wire fresh_client ++ [req]
    /\ task_of req
       = Some (JObject [("type", JString "RecaptchaV3Task");
                        ("websiteKey", JString "site-key");
                        ("websiteURL", JString "https://example.com");
                        ("minScore", JNumber (NFloat score_0_7));
                        ("pageAction", JString "login")]).
Proof.
  apply (recaptcha_v3_task_object (mock 200 (taskId_body "abc123")) fresh_client 0%nat
           (mkVastCap "key") example_base).
  reflexivity.
Defined.

(** * Further properties of the client *)

(** ** Tools *)

(** Evaluate the tests of member names against field names. *)
Ltac eval_fields :=
  repeat match goal with
         | |- context [field ?a ?b] =>
             let v := eval vm_compute in (field a b) in change (field a b) with v
         end.

(** Decode a response body given by its members. *)
Ltac decode :=
  repeat (progress
            (unfold into_struct, into_ptr, createResp_field, TaskResult_field,
               apiError_field, taskSolution_field, into_string, into_int, into_float64,
               error_body, taskId_body, ready_body, processing_body;
             cbn [Unmarshal createResp_Unmarshaler TaskResult_Unmarshaler];
             eval_fields;
             cbn [foldl fst snd mbind option_bind fmap option_fmap option_map default
                  apiError_ErrorId apiError_ErrorCode apiError_ErrorDescription
                  createResp_TaskID createResp_Error
                  TaskResult_Status TaskResult_Solution TaskResult_Error
                  createResp_zero TaskResult_zero apiError_zero taskSolution_zero signed])).

Lemma float64_member_finite (k : string) (f : float) :
  PrimFloat.is_finite f = true -> exists ms, float64_member k f = Some ms.
Proof.
  intros Hfin. unfold float64_member. rewrite Hfin.
  destruct (PrimFloat.is_zero f); eauto.
Qed.

(** All five create-task calls at once, from what they do with the reply
    to the one request they send. *)
Lemma create_calls_intro (remote : Request -> Reply) (m : machine) (c : loc)
    (this : VastCap) (P : outcome (string * option error) -> Prop) :
  mem m !! c = Some (VVastCap this) ->
  (forall (task : json) (cells : list value),
      let req := createTask_request (VastCap_APIKey this) task in
      P (Return (createTask_result (Client_Do remote req))
                (mkMachine (mem m ++ cells) (wire m ++ [req])))) ->
  create_calls remote c m P.
Proof.
  intros Hc HP. unfold create_calls. repeat apply conj.
  - intros data. run Hc. apply HP.
  - intros data v3 Hfin. run Hc. unfold RecaptchaTask_members.
    destruct (float64_member_finite "minScore" _ Hfin) as [ms Hms].
    cbn [RecaptchaTask_set_Type RecaptchaTask_MinScore]. rewrite Hms.
    cbn [mbind option_bind]. apply HP.
  - intros data. run Hc. apply HP.
  - intros data. run Hc. apply HP.
  - intros data. run Hc. apply HP.
Qed.

(** ** Replies with status 200 *)

Lemma Unmarshal_error_body_with (errorId : number) (id : Z) (code desc : string) :
  into_int (JNumber errorId) 0 = Some id ->
  Unmarshal (error_body_with errorId code desc) createResp_zero
  = Some (mkCreateResp "" (Some (mkApiError id code desc))).
Proof.
  intros Hid. unfold error_body_with.
  cbn [Unmarshal createResp_Unmarshaler].
  unfold into_struct at 1. cbn [foldl fst snd]. unfold createResp_field. eval_fields.
  cbn [createResp_zero createResp_Error createResp_TaskID].
  unfold into_ptr, into_struct. cbn [foldl fst snd mbind option_bind].
  unfold apiError_field. eval_fields.
  change (apiError_ErrorId (default apiError_zero (createResp_Error createResp_zero))) with 0.
  rewrite Hid. reflexivity.
Qed.

Lemma createTask_result_decoded_error (body : json) (resp : createResp) (e : apiError) :
  Unmarshal body createResp_zero = Some resp ->
  createResp_Error resp = Some e ->
  createTask_result (Response 200 (Some body)) = ("", Some (vastcap_error e)).
Proof.
  intros Hbody He. unfold createTask_result. cbn [Z.eqb Pos.eqb mbind option_bind].
  now rewrite Hbody, He.
Qed.

(** C4, as amended: for every create-task method, when the endpoint
    answers HTTP 200 with the body [{"taskId": "abc123"}] the method returns
    "abc123" and no error; when it answers HTTP 200 with a body that
    decodes to a response with an error object whose [errorCode] is
    "KEY_INVALID" and whose [errorDescription] is "bad key", the method
    returns an error whose text contains both "bad key" and "KEY_INVALID".
    The body [{"error": {"errorId": n, "errorCode": "KEY_INVALID",
    "errorDescription": "bad key"}}] is such a body for every number [n]
    that decodes into a Go [int].  (For [Recaptcha] the endpoint is only
    reached when the encoder accepts the minimum score.) *)
Theorem create_methods_on_decoded_replies (m : machine) (c : loc) (this : VastCap) :
  mem m !! c = Some (VVastCap this) ->
  create_calls (mock 200 (taskId_body "abc123")) c m returns_abc123
  /\ (forall (body : json) (resp : createResp) (e : apiError),
        Unmarshal body createResp_zero = Some resp ->
        createResp_Error resp = Some e ->
        apiError_ErrorCode e = "KEY_INVALID" ->
        apiError_ErrorDescription e = "bad key" ->
        create_calls (mock 200 body) c m (fails_mentioning "bad key" "KEY_INVALID"))
  /\ (forall (errorId : number) (id : Z),
        into_int (JNumber errorId) 0 = Some id ->
        create_calls (mock 200 (error_body_with errorId "KEY_INVALID" "bad key")) c m
          (fails_mentioning "bad key" "KEY_INVALID")).
Proof.
  intros Hc.
  assert (Hko : forall (body : json) (resp : createResp) (e : apiError),
             Unmarshal body createResp_zero = Some resp ->
             createResp_Error resp = Some e ->
             apiError_ErrorCode e = "KEY_INVALID" ->
             apiError_ErrorDescription e = "bad key" ->
             create_calls (mock 200 body) c m (fails_mentioning "bad key" "KEY_INVALID")).
  { intros body resp e Hbody He Hcode Hdesc.
    apply (create_calls_intro _ m c this); [exact Hc|].
    intros task cells req. direct.
    unfold mock. rewrite (createTask_result_decoded_error body resp e Hbody He).
    eexists _, _. split; [reflexivity|].
    destruct (error_message_contains e) as [Hd Hk].
    rewrite <- Hdesc, <- Hcode. now split. }
  split; [|split].
  - apply (create_calls_intro _ m c this); [exact Hc|].
    intros task cells req. direct.
    eexists. reflexivity.
  - exact Hko.
  - intros errorId id Hid.
    apply (Hko _ _ (mkApiError id "KEY_INVALID" "bad key")
               (Unmarshal_error_body_with errorId id _ _ Hid)); reflexivity.
Qed.

(** The two documented replies, and the error object with a negative
    [errorId]. *)
Lemma create_methods_on_decoded_replies_witness :
  returns_abc123
    (HCaptcha (mock 200 (taskId_body "abc123")) 0%nat example_hcaptcha fresh_client)
  /\ fails_mentioning "bad key" "KEY_INVALID"
       (HCaptcha (mock 200 (error_body 1 "KEY_INVALID" "bad key")) 0%nat
                 example_hcaptcha fresh_client)
  /\ fails_mentioning "bad key" "KEY_INVALID"
       (HCaptcha (mock 200 (error_body_with (NInt true 7) "KEY_INVALID" "bad key")) 0%nat
                 example_hcaptcha fresh_client).
Proof.
  destruct (create_methods_on_decoded_replies fresh_client 0%nat (mkVastCap "key") eq_refl)
    as (Hok & Hko & Hid).
  split; [apply Hok|]. split.
  - apply (Hko (error_body 1 "KEY_INVALID" "bad key")
               (mkCreateResp "" (Some (mkApiError 1 "KEY_INVALID" "bad key")))
               (mkApiError 1 "KEY_INVALID" "bad key") eq_refl eq_refl eq_refl eq_refl).
  - apply (Hid (NInt true 7) (-7) eq_refl).
Defined.

(** C4, as it was claimed, fails: the error object below has the
    [errorCode] "KEY_INVALID" and the [errorDescription] "bad key", but its
    [errorId] does not fit a Go [int].  The body is not decoded, and the
    error of [HCaptcha] is the one of the decoder, not a message with the
    two texts. *)
Lemma error_object_that_is_not_decoded :
  ~ fails_mentioning "bad key" "KEY_INVALID"
      (HCaptcha (mock 200 (error_body (2 ^ 63) "KEY_INVALID" "bad key"))
                0%nat example_hcaptcha fresh_client).
Proof.
  rewrite (HCaptcha_run _ fresh_client 0%nat (mkVastCap "key") eq_refl).
  intros (msg & m' & Hrun & _). vm_compute in Hrun. discriminate Hrun.
Qed.

(** ** Failures of the transport and of the decoding *)

(** When the transport fails, every method returns the error of the
    transport, with its cause, and an empty result; it has sent its one
    request and sends no other. *)
Theorem transport_failure_is_returned
    (m : machine) (c : loc) (this : VastCap) (cause : string) :
  mem m !! c = Some (VVastCap this) ->
  create_calls (unreachable cause) c m
    (fun run => exists m' req,
         run = Return ("", Some (ErrTransport cause)) m'
         /\ wire m' = wire m ++ [req])
  /\ (forall taskID, exists m' req,
        GetResult (unreachable cause) c taskID m
        = Return (TaskResult_zero, Some (ErrTransport cause)) m'
        /\ wire m' = wire m ++ [req]).
Proof.
  intros Hc. split.
  - apply (create_calls_intro _ _ _ _ _ Hc). intros task cells req. direct.
    do 2 eexists. split; reflexivity.
  - intros taskID. run Hc. do 2 eexists. split; reflexivity.
Qed.

Lemma transport_failure_is_returned_witness :
  exists m' req,
    GetResult (unreachable "connection refused") 0%nat "task-1" fresh_client
    = Return (TaskResult_zero, Some (ErrTransport "connection refused")) m'
    /\ wire m' = wire fresh_client ++ [req].
Proof.
  apply (transport_failure_is_returned fresh_client 0%nat (mkVastCap "key")
           "connection refused").
  reflexivity.
Defined.

Lemma Unmarshal_not_an_object {R} (set_field : string -> json -> R -> option R)
    (body : option json) (r : R) :
  not_an_object body = true ->
  body ≫= (fun j => into_struct set_field j r) = None.
Proof. destruct body as [[]|]; (discriminate || reflexivity). Qed.

(** A response with status 200 whose body is not JSON, or is JSON but not
    an object (nor [null]), makes every method fail with the error of the
    handler; so does a [taskId] that is not a string. *)
Theorem undecodable_body_is_a_failure
    (m : machine) (c : loc) (this : VastCap) (body : option json) :
  mem m !! c = Some (VVastCap this) ->
  not_an_object body = true ->
  create_calls (answer 200 body) c m
    (fun run => exists m', run = Return ("", Some ErrHandler) m')
  /\ (forall taskID, exists m',
        GetResult (answer 200 body) c taskID m
        = Return (TaskResult_zero, Some ErrHandler) m')
  /\ (forall n : number,
        create_calls (mock 200 (JObject [("taskId", JNumber n)])) c m
          (fun run => exists m', run = Return ("", Some ErrHandler) m')).
Proof.
  intros Hc Hbody. split; [|split].
  - apply (create_calls_intro _ _ _ _ _ Hc). intros task cells req. direct.
    eexists. unfold createTask_result, answer. cbn [Z.eqb Pos.eqb Unmarshal createResp_Unmarshaler].
    now rewrite (Unmarshal_not_an_object _ _ _ Hbody).
  - intros taskID. run Hc. eexists.
    unfold getTaskResult_result, answer. cbn [Z.eqb Pos.eqb Unmarshal TaskResult_Unmarshaler].
    now rewrite (Unmarshal_not_an_object _ _ _ Hbody).
  - intros n. apply (create_calls_intro _ _ _ _ _ Hc). intros task cells req. direct.
    eexists. unfold createTask_result, mock. cbn [Z.eqb Pos.eqb mbind option_bind].
    decode. reflexivity.
Qed.

Lemma undecodable_body_is_a_failure_witness :
  exists m',
    GetResult (answer 200 (Some (JArray []))) 0%nat "task-1" fresh_client
    = Return (TaskResult_zero, Some ErrHandler) m'.
Proof.
  apply (undecodable_body_is_a_failure fresh_client 0%nat (mkVastCap "key")
           (Some (JArray []))); reflexivity.
Defined.

(** ** What the methods make of a response with status 200 *)

Lemma createTask_result_mock (body : json) (req : Request) :
  createTask_result (mock 200 body req)
  = match Unmarshal body createResp_zero with
    | None => ("", Some ErrHandler)
    | Some resp =>
        match createResp_Error resp with
        | Some e => ("", Some (vastcap_error e))
        | None => (createResp_TaskID resp, None)
        end
    end.
Proof. reflexivity. Qed.

Lemma getTaskResult_result_mock (body : json) (req : Request) :
  getTaskResult_result (mock 200 body req)
  = match Unmarshal body TaskResult_zero with
    | None => (TaskResult_zero, Some ErrHandler)
    | Some resp =>
        match TaskResult_Error resp with
        | Some e => (TaskResult_zero, Some (vastcap_error e))
        | None => (resp, None)
        end
    end.
Proof. reflexivity. Qed.

(** Every create-task method returns the task identifier of the response
    as it is, whatever string it is, and no error. *)
Theorem create_returns_the_task_id_verbatim
    (m : machine) (c : loc) (this : VastCap) (id : string) :
  mem m !! c = Some (VVastCap this) ->
  create_calls (mock 200 (taskId_body id)) c m
    (fun run => exists m', run = Return (id, None) m').
Proof.
  intros Hc. apply (create_calls_intro _ _ _ _ _ Hc). intros task cells req. direct.
  eexists. rewrite createTask_result_mock. decode. reflexivity.
Qed.

Lemma create_returns_the_task_id_verbatim_witness :
  exists m',
    Turnstile (mock 200 (taskId_body "7f3c-01")) 0%nat
              (mkTurnstileTask example_base true) fresh_client
    = Return ("7f3c-01", None) m'.
Proof.
  apply (create_returns_the_task_id_verbatim fresh_client 0%nat (mkVastCap "key") "7f3c-01").
  reflexivity.
Defined.

Lemma into_struct_unknown {R} (set_field : string -> json -> R -> option R)
    (unknown : string -> bool) (ms : list (string * json)) (r : R) :
  (forall k v r', unknown k = true -> set_field k v r' = Some r') ->
  forallb unknown (map fst ms) = true ->
  into_struct set_field (JObject ms) r = Some r.
Proof.
  intros Hset. unfold into_struct. revert r.
  induction ms as [|[k v] ms IH]; intros r Hms; [reflexivity|].
  cbn in Hms. apply andb_prop in Hms as [Hk Hms].
  cbn [foldl fst snd mbind option_bind]. rewrite (Hset k v r Hk). now apply IH.
Qed.

Lemma createResp_field_unknown (k : string) (v : json) (r : createResp) :
  unknown_to_createResp k = true -> createResp_field k v r = Some r.
Proof.
  unfold unknown_to_createResp, createResp_field.
  destruct (field "taskId" k), (field "error" k); (discriminate || reflexivity).
Qed.

Lemma TaskResult_field_unknown (k : string) (v : json) (r : TaskResult) :
  unknown_to_TaskResult k = true -> TaskResult_field k v r = Some r.
Proof.
  unfold unknown_to_TaskResult, TaskResult_field.
  destruct (field "status" k), (field "solution" k), (field "error" k);
    (discriminate || reflexivity).
Qed.

(** A response with status 200 that has none of the expected members (the
    body [null], the empty object, or an object whose member names select
    no field) is not an error: a create-task method returns the empty
    identifier and no error, and [GetResult] the zero result and no error. *)
Theorem response_without_known_members_is_a_success
    (m : machine) (c : loc) (this : VastCap) :
  mem m !! c = Some (VVastCap this) ->
  create_calls (mock 200 JNull) c m
    (fun run => exists m', run = Return ("", None) m')
  /\ (forall ms,
        forallb unknown_to_createResp (map fst ms) = true ->
        create_calls (mock 200 (JObject ms)) c m
          (fun run => exists m', run = Return ("", None) m'))
  /\ (forall taskID, exists m',
        GetResult (mock 200 JNull) c taskID m = Return (TaskResult_zero, None) m')
  /\ (forall ms taskID,
        forallb unknown_to_TaskResult (map fst ms) = true ->
        exists m',
          GetResult (mock 200 (JObject ms)) c taskID m
          = Return (TaskResult_zero, None) m').
Proof.
  intros Hc. split; [|split; [|split]].
  - apply (create_calls_intro _ _ _ _ _ Hc). intros task cells req. direct. now eexists.
  - intros ms Hms. apply (create_calls_intro _ _ _ _ _ Hc). intros task cells req. direct.
    eexists. rewrite createTask_result_mock. cbn [Unmarshal createResp_Unmarshaler].
    now rewrite (into_struct_unknown _ _ _ _ createResp_field_unknown Hms).
  - intros taskID. run Hc. now eexists.
  - intros ms taskID Hms. run Hc. eexists.
    rewrite getTaskResult_result_mock. cbn [Unmarshal TaskResult_Unmarshaler].
    now rewrite (into_struct_unknown _ _ _ _ TaskResult_field_unknown Hms).
Qed.

Lemma response_without_known_members_is_a_success_witness :
  exists m',
    GetResult (mock 200 (JObject [("state", JString "ready"); ("result", JNull)]))
              0%nat "task-1" fresh_client
    = Return (TaskResult_zero, None) m'.
Proof.
  destruct (response_without_known_members_is_a_success
              fresh_client 0%nat (mkVastCap "key") eq_refl) as (_ & _ & _ & H).
  apply (H [("state", JString "ready"); ("result", JNull)] "task-1").
  reflexivity.
Defined.

Lemma Unmarshal_error_body_createResp (n : N) (code desc : string) :
  Unmarshal (error_body n code desc) createResp_zero
  = if (n <? 2 ^ 63)%N
    then Some (mkCreateResp "" (Some (mkApiError (Z.of_N n) code desc)))
    else None.
Proof.
  decode.
  destruct (Z.leb_spec (- 2 ^ 63) (Z.of_N n)); [|lia].
  destruct (Z.ltb_spec (Z.of_N n) (2 ^ 63)), (N.ltb_spec n (2 ^ 63)); (lia || reflexivity).
Qed.

Lemma Unmarshal_error_body_TaskResult (n : N) (code desc : string) :
  Unmarshal (error_body n code desc) TaskResult_zero
  = if (n <? 2 ^ 63)%N
    then Some (mkTaskResult "" None (Some (mkApiError (Z.of_N n) code desc)))
    else None.
Proof.
  decode.
  destruct (Z.leb_spec (- 2 ^ 63) (Z.of_N n)); [|lia].
  destruct (Z.ltb_spec (Z.of_N n) (2 ^ 63)), (N.ltb_spec n (2 ^ 63)); (lia || reflexivity).
Qed.

(** For every error object of the service, whatever its code and its
    description, with an [errorId] that fits Go's [int]: a response with
    status 200 and that object makes every method fail with the message
    "vastcap error: <description> (<code>)". *)
Theorem error_object_makes_every_method_fail
    (m : machine) (c : loc) (this : VastCap) (n : N) (code desc : string) :
  mem m !! c = Some (VVastCap this) ->
  (n < 2 ^ 63)%N ->
  let failed := Some (Errorf ("vastcap error: " +:+ desc +:+ " (" +:+ code +:+ ")")) in
  create_calls (mock 200 (error_body n code desc)) c m
    (fun run => exists m', run = Return ("", failed) m')
  /\ (forall taskID, exists m',
        GetResult (mock 200 (error_body n code desc)) c taskID m
        = Return (TaskResult_zero, failed) m').
Proof.
  intros Hc Hn failed. apply N.ltb_lt in Hn. split.
  - apply (create_calls_intro _ _ _ _ _ Hc). intros task cells req. direct.
    eexists. rewrite createTask_result_mock, Unmarshal_error_body_createResp, Hn.
    reflexivity.
  - intros taskID. run Hc. eexists.
    rewrite getTaskResult_result_mock, Unmarshal_error_body_TaskResult, Hn.
    reflexivity.
Qed.

Lemma error_object_makes_every_method_fail_witness :
  exists m',
    GetResult (mock 200 (error_body 42 "TASK_NOT_FOUND" "no such task")) 0%nat "task-1"
              fresh_client
    = Return (TaskResult_zero,
              Some (Errorf "vastcap error: no such task (TASK_NOT_FOUND)")) m'.
Proof.
  apply (error_object_makes_every_method_fail fresh_client 0%nat (mkVastCap "key")
           42%N "TASK_NOT_FOUND" "no such task").
  - reflexivity.
  - reflexivity.
Defined.

(** An error object whose [errorId] does not fit Go's [int] (64 bits) does
    not decode: every method fails with the error of the handler, and the
    code and the description of the service are lost. *)
Theorem errorId_out_of_range_is_a_decoding_failure
    (m : machine) (c : loc) (this : VastCap) (n : N) (code desc : string) :
  mem m !! c = Some (VVastCap this) ->
  (2 ^ 63 <= n)%N ->
  create_calls (mock 200 (error_body n code desc)) c m
    (fun run => exists m', run = Return ("", Some ErrHandler) m')
  /\ (forall taskID, exists m',
        GetResult (mock 200 (error_body n code desc)) c taskID m
        = Return (TaskResult_zero, Some ErrHandler) m').
Proof.
  intros Hc Hn. apply N.ltb_ge in Hn. split.
  - apply (create_calls_intro _ _ _ _ _ Hc). intros task cells req. direct.
    eexists. rewrite createTask_result_mock, Unmarshal_error_body_createResp, Hn.
    reflexivity.
  - intros taskID. run Hc. eexists.
    rewrite getTaskResult_result_mock, Unmarshal_error_body_TaskResult, Hn.
    reflexivity.
Qed.

Lemma errorId_out_of_range_is_a_decoding_failure_witness :
  exists m',
    GetResult (mock 200 (error_body (2 ^ 63) "KEY_INVALID" "bad key")) 0%nat "task-1"
              fresh_client
    = Return (TaskResult_zero, Some ErrHandler) m'.
Proof.
  apply (errorId_out_of_range_is_a_decoding_failure fresh_client 0%nat (mkVastCap "key")
           (2 ^ 63)%N "KEY_INVALID" "bad key").
  - reflexivity.
  - discriminate.
Defined.

Lemma Unmarshal_result_body (status : string) (solution : option taskSolution) :
  finite_score solution ->
  Unmarshal (result_body status solution) TaskResult_zero
  = Some (mkTaskResult status solution None).
Proof.
  intros Hscore.
  destruct solution as [[g h t x sc ua]|]; [|decode; reflexivity].
  assert (Hfin : forall f, sc = Some f -> PrimFloat.is_finite f = true).
  { intros f ->. now apply (Hscore _ f eq_refl). }
  destruct sc as [f|]; [pose proof (Hfin f eq_refl) as Hf|];
    destruct g, h, t, x, ua;
    lazy beta iota zeta delta
      [result_body solution_object optional_member fmap option_fmap option_map app
       taskSolution_GRecaptchaResponse taskSolution_HCaptchaResponse
       taskSolution_TurnstileResponse taskSolution_Text taskSolution_Score
       taskSolution_UserAgent];
    decode; unfold number_float64; rewrite ?Hf; reflexivity.
Qed.

(** [GetResult] returns the status and the solution of a response without
    error object as they are: it does not interpret the status (a status
    "failed" without error object is returned as a result, with no error),
    and each field of the solution that the service sent is set, the others
    are nil. *)
Theorem GetResult_returns_status_and_solution
    (m : machine) (c : loc) (this : VastCap)
    (status : string) (solution : option taskSolution) (taskID : string) :
  mem m !! c = Some (VVastCap this) ->
  finite_score solution ->
  exists m',
    GetResult (mock 200 (result_body status solution)) c taskID m
    = Return (mkTaskResult status solution None, None) m'.
Proof.
  intros Hc Hscore. run Hc. eexists. rewrite getTaskResult_result_mock.
  now rewrite (Unmarshal_result_body _ _ Hscore).
Qed.

Lemma GetResult_returns_status_and_solution_witness :
  exists m',
    GetResult (mock 200 (result_body "ready"
                 (Some (mkTaskSolution (Some "03AGdBq2") None None None
                                       (Some score_0_7) (Some "Mozilla/5.0")))))
              0%nat "task-1" fresh_client
    = Return (mkTaskResult "ready"
                (Some (mkTaskSolution (Some "03AGdBq2") None None None
                                      (Some score_0_7) (Some "Mozilla/5.0")))
                None, None) m'.
Proof.
  apply (GetResult_returns_status_and_solution fresh_client 0%nat (mkVastCap "key")).
  - reflexivity.
  - intros s f [= <-] [= <-]. reflexivity.
Defined.

(** ** The requests *)

(** Whatever the service answers, every method calls the HTTP client
    exactly once, with a POST to the create-task URL for the create-task
    methods, to the get-result URL for [GetResult]: no method tries again
    after a failure.  What goes to the service is this request and, after
    it, only the requests by which the HTTP client follows redirects: at
    most nine, with the same body or none, and none at all when the first
    reply is a failure of the transport or a response without
    [Location]. *)
Theorem one_call_of_the_HTTP_client
    (remote : Request -> Reply) (m : machine) (c : loc) (this : VastCap) :
  mem m !! c = Some (VVastCap this) ->
  create_calls remote c m
    (fun run => exists r m' req,
         run = Return r m'
         /\ wire m' = wire m ++ [req]
         /\ Request_Method req = "POST"
         /\ Request_URL req = "https://captcha.vast.sh/api/solver/createTask"
         /\ redirects_only remote req)
  /\ (forall taskID, exists r m' req,
        GetResult remote c taskID m = Return r m'
        /\ wire m' = wire m ++ [req]
        /\ Request_Method req = "POST"
        /\ Request_URL req = "https://captcha.vast.sh/api/solver/getTaskResult"
        /\ redirects_only remote req).
Proof.
  intros Hc. split.
  - apply (create_calls_intro _ _ _ _ _ Hc). intros task cells req.
    do 3 eexists. do 4 (split; [reflexivity|]). apply redirects_only_intro.
  - intros taskID. run Hc. do 3 eexists. do 4 (split; [reflexivity|]).
    apply redirects_only_intro.
Qed.

(** A service that answers the first request with a redirect (308) to a
    URL where it cannot be reached: two requests go out, the second with
    the body of the first. *)
Lemma one_call_of_the_HTTP_client_witness :
  exists r m' req,
    HCaptcha (moved 308 "https://captcha.vast.sh/api/v2/createTask" (NoReply "timeout"))
             0%nat example_hcaptcha fresh_client
    = Return r m'
    /\ wire m' = wire fresh_client ++ [req]
    /\ Request_Method req = "POST"
    /\ Request_URL req = "https://captcha.vast.sh/api/solver/createTask"
    /\ redirects_only
         (moved 308 "https://captcha.vast.sh/api/v2/createTask" (NoReply "timeout")) req.
Proof.
  apply (one_call_of_the_HTTP_client
           (moved 308 "https://captcha.vast.sh/api/v2/createTask" (NoReply "timeout"))
           fresh_client 0%nat (mkVastCap "key")).
  reflexivity.
Defined.

(** [Recaptcha] with a minimum score that is a NaN or an infinity fails
    before anything is sent: the encoder refuses the value, and the method
    returns the error of the request, whatever the service would answer. *)
Theorem Recaptcha_refuses_a_non_finite_score
    (remote : Request -> Reply) (m : machine) (c : loc) (this : VastCap)
    (data : RecaptchaTask) (v3 : bool) :
  mem m !! c = Some (VVastCap this) ->
  PrimFloat.is_zero (RecaptchaTask_MinScore data) = false ->
  PrimFloat.is_finite (RecaptchaTask_MinScore data) = false ->
  exists m',
    Recaptcha remote c data v3 m = Return ("", Some ErrRequest) m'
    /\ wire m' = wire m.
Proof.
  intros Hc Hz Hfin. run Hc.
  unfold RecaptchaTask_members, float64_member;
    cbn [RecaptchaTask_set_Type RecaptchaTask_MinScore].
  rewrite Hz, Hfin. cbn [mbind option_bind]. eexists. split; reflexivity.
Qed.

Lemma Recaptcha_refuses_a_non_finite_score_witness :
  exists m',
    Recaptcha (mock 200 (taskId_body "abc123")) 0%nat
              (mkRecaptchaTask example_base false PrimFloat.nan "login") true fresh_client
    = Return ("", Some ErrRequest) m'
    /\ wire m' = wire fresh_client.
Proof.
  apply (Recaptcha_refuses_a_non_finite_score (mock 200 (taskId_body "abc123"))
           fresh_client 0%nat (mkVastCap "key")
           (mkRecaptchaTask example_base false PrimFloat.nan "login") true);
    reflexivity.
Defined.

(** The v3 flag of [Recaptcha] decides the [type] of the task and nothing
    else: the two task objects have the same members after [type].  The
    fields that are meant for one variant only ([isInvisible] for v2,
    [minScore] and [pageAction] for v3) are sent for the other as well when
    they are set. *)
Theorem Recaptcha_flag_only_decides_the_type
    (remote : Request -> Reply) (m : machine) (c : loc) (this : VastCap)
    (data : RecaptchaTask) :
  mem m !! c = Some (VVastCap this) ->
  PrimFloat.is_finite (RecaptchaTask_MinScore data) = true ->
  exists rest r2 r3 m2 m3,
    Recaptcha remote c data false m = Return r2 m2
    /\ Recaptcha remote c data true m = Return r3 m3
    /\ wire m2
       = wire m ++ [createTask_request (VastCap_APIKey this)
                      (JObject (("type", JString "RecaptchaV2Task") :: rest))]
    /\ wire m3
       = wire m ++ [createTask_request (VastCap_APIKey this)
                      (JObject (("type", JString "RecaptchaV3Task") :: rest))].
Proof.
  intros Hc Hfin. run Hc. unfold RecaptchaTask_members.
  cbn [RecaptchaTask_set_Type RecaptchaTask_MinScore RecaptchaTask_TaskBase
       RecaptchaTask_IsInvisible RecaptchaTask_PageAction].
  destruct (float64_member_finite "minScore" _ Hfin) as [ms Hms]. rewrite Hms.
  cbn [mbind option_bind]. unfold TaskBase_members.
  cbn [TaskBase_set_Type TaskBase_Type TaskBase_Proxy TaskBase_UserAgent
       TaskBase_WebsiteKey TaskBase_WebsiteURL app].
  do 5 eexists. repeat split.
Qed.

Lemma Recaptcha_flag_only_decides_the_type_witness :
  exists rest r2 r3 m2 m3,
    Recaptcha (mock 200 (taskId_body "abc123")) 0%nat
              (mkRecaptchaTask example_base true score_0_7 "login") false fresh_client
    = Return r2 m2
    /\ Recaptcha (mock 200 (taskId_body "abc123")) 0%nat
                 (mkRecaptchaTask example_base true score_0_7 "login") true fresh_client
       = Return r3 m3
    /\ wire m2
       = wire fresh_client
         ++ [createTask_request "key"
               (JObject (("type", JString "RecaptchaV2Task") :: rest))]
    /\ wire m3
       = wire fresh_client
         ++ [createTask_request "key"
               (JObject (("type", JString "RecaptchaV3Task") :: rest))].
Proof.
  apply (Recaptcha_flag_only_decides_the_type (mock 200 (taskId_body "abc123"))
           fresh_client 0%nat (mkVastCap "key")
           (mkRecaptchaTask example_base true score_0_7 "login"));
    reflexivity.
Defined.

(** ** The members of the task object *)

Lemma TaskBase_members_required (b : TaskBase) (rest : list (string * json)) :
  has_required b (TaskBase_Type b) (JObject (TaskBase_members b ++ rest)).
Proof.
  destruct b as [ty p ua k u]. unfold has_required, TaskBase_members; cbn.
  destruct p, ua; repeat split.
Qed.

(** Every create-task method sends, in the task object, the type and the
    two required fields [websiteKey] and [websiteURL] with the values of
    the task description, whatever they are: an empty required field is
    sent as the empty string, not checked and not left out. *)
Theorem required_fields_are_always_sent
    (remote : Request -> Reply) (m : machine) (c : loc) (this : VastCap) :
  mem m !! c = Some (VVastCap this) ->
  (forall data, exists r m' req task,
      HCaptcha remote c data m = Return r m'
      /\ wire m' = wire m ++ [req] /\ task_of req = Some task
      /\ has_required (HCaptchaTask_TaskBase data) "HCaptchaTask" task)
  /\ (forall data v3,
      PrimFloat.is_finite (RecaptchaTask_MinScore data) = true ->
      exists r m' req task,
        Recaptcha remote c data v3 m = Return r m'
        /\ wire m' = wire m ++ [req] /\ task_of req = Some task
        /\ has_required (RecaptchaTask_TaskBase data)
             (if v3 then "RecaptchaV3Task" else "RecaptchaV2Task") task)
  /\ (forall data, exists r m' req task,
      Turnstile remote c data m = Return r m'
      /\ wire m' = wire m ++ [req] /\ task_of req = Some task
      /\ has_required (TurnstileTask_TaskBase data) "TurnstileTask" task)
  /\ (forall data, exists r m' req task,
      FunCaptcha remote c data m = Return r m'
      /\ wire m' = wire m ++ [req] /\ task_of req = Some task
      /\ has_required (FunCaptchaTask_TaskBase data) "FunCaptchaTask" task)
  /\ (forall data, exists r m' req task,
      ImageToText remote c data m = Return r m'
      /\ wire m' = wire m ++ [req] /\ task_of req = Some task
      /\ has_required data "ImageToTextTask" task).
Proof.
  intros Hc. repeat apply conj.
  - intros data. run Hc. do 4 eexists. do 3 (split; [reflexivity|]).
    apply (TaskBase_members_required
             (TaskBase_set_Type "HCaptchaTask" (HCaptchaTask_TaskBase data))).
  - intros data v3 Hfin. run Hc. unfold RecaptchaTask_members.
    destruct (float64_member_finite "minScore" _ Hfin) as [ms Hms].
    cbn [RecaptchaTask_set_Type RecaptchaTask_MinScore]. rewrite Hms.
    cbn [mbind option_bind]. do 4 eexists. do 3 (split; [reflexivity|]).
    apply (TaskBase_members_required
             (TaskBase_set_Type (if v3 then "RecaptchaV3Task" else "RecaptchaV2Task")
                                (RecaptchaTask_TaskBase data))).
  - intros data. run Hc. do 4 eexists. do 3 (split; [reflexivity|]).
    apply (TaskBase_members_required
             (TaskBase_set_Type "TurnstileTask" (TurnstileTask_TaskBase data))).
  - intros data. run Hc. do 4 eexists. do 3 (split; [reflexivity|]).
    apply (TaskBase_members_required
             (TaskBase_set_Type "FunCaptchaTask" (FunCaptchaTask_TaskBase data))).
  - intros data. run Hc. do 4 eexists. do 3 (split; [reflexivity|]).
    rewrite <- (app_nil_r (TaskBase_members _)).
    apply (TaskBase_members_required (TaskBase_set_Type "ImageToTextTask" data)).
Qed.

Lemma required_fields_are_always_sent_witness :
  exists r m' req task,
    ImageToText (mock 200 (taskId_body "abc123")) 0%nat (mkTaskBase "" "" "" "" "")
                fresh_client
    = Return r m'
    /\ wire m' = wire fresh_client ++ [req] /\ task_of req = Some task
    /\ has_required (mkTaskBase "" "" "" "" "") "ImageToTextTask" task.
Proof.
  apply (required_fields_are_always_sent (mock 200 (taskId_body "abc123")) fresh_client
           0%nat (mkVastCap "key")).
  reflexivity.
Defined.

Lemma unset_optional_fields_are_absent_witness :
  assoc "proxy" (TaskBase_members example_base) = None
  /\ assoc "enterprise" (HCaptchaTask_members (mkHCaptchaTask example_base "rq" true false))
     = None.
Proof.
  destruct unset_optional_fields_are_absent as (Hproxy & _ & _ & _ & Henterprise & _).
  split; [apply Hproxy|apply Henterprise]; reflexivity.
Defined.

Lemma insert_by_key_perm {A} (kv : string * A) (l : list (string * A)) :
  insert_by_key kv l ≡ₚ kv :: l.
Proof.
  induction l as [|kv' l IH]; cbn; [reflexivity|].
  destruct (String.leb _ _); [reflexivity|].
  rewrite IH. apply Permutation_swap.
Qed.

Lemma sorted_entries_perm {A} (m : gmap string A) :
  sorted_entries m ≡ₚ map_to_list m.
Proof.
  unfold sorted_entries. induction (map_to_list m) as [|kv l IH]; cbn; [reflexivity|].
  rewrite insert_by_key_perm. now constructor.
Qed.

Lemma assoc_list_to_map (l : list (string * string)) (k : string) :
  assoc k (map (fun kv => (fst kv, JString (snd kv))) l)
  = JString <$> (list_to_map l : gmap string string) !! k.
Proof.
  induction l as [|[k' v] l IH]; cbn [map assoc fst snd].
  - now rewrite list_to_map_nil, lookup_empty.
  - rewrite list_to_map_cons. destruct (String.eqb_spec k k') as [->|Hne].
    + now rewrite lookup_insert_eq.
    + rewrite lookup_insert_ne by congruence. exact IH.
Qed.

Lemma assoc_sorted_entries (cookies : gmap string string) (k : string) :
  assoc k (map (fun kv => (fst kv, JString (snd kv))) (sorted_entries cookies))
  = JString <$> cookies !! k.
Proof.
  rewrite assoc_list_to_map.
  rewrite (list_to_map_proper (sorted_entries cookies) (map_to_list cookies)).
  - now rewrite list_to_map_to_list.
  - rewrite sorted_entries_perm. apply NoDup_fst_map_to_list.
  - apply sorted_entries_perm.
Qed.

Lemma length_sorted_entries {A} (m : gmap string A) :
  length (sorted_entries m) = size m.
Proof. rewrite sorted_entries_perm. apply length_map_to_list. Qed.

(** The literals of some scores: a fraction; whole numbers below [2^53];
    whole numbers from [2^53] on, among them [2^63] and 123456789012345664,
    which are not printed with their exact digits; and [1e21], which is
    printed with an exponent.  Each literal reads back as the score. *)
Lemma float64_literal_examples :
  float64_literal score_0_7 = NFloat score_0_7
  /\ float64_literal 1 = NInt false 1
  /\ float64_literal (-3) = NInt true 3
  /\ float64_literal 0x1p53 = NInt false 9007199254740992
  /\ float64_literal 0x1.1c37937e08p53 = NInt false 10000000000000000
  /\ float64_literal 0x1p63 = NInt false 9223372036854776000
  /\ float64_literal 0x1.b69b4ba630f34p56 = NInt false 123456789012345660
  /\ float64_literal 0x1.b1ae4d6e2ef5p69 = NFloat 0x1.b1ae4d6e2ef5p69
  /\ Forall (fun f => number_float64 (float64_literal f) = Some f)
        [score_0_7; 1; -3; 0x1p53; 0x1.1c37937e08p53; 0x1p63; 0x1.b69b4ba630f34p56;
         0x1.b1ae4d6e2ef5p69]%float.
Proof.
  do 8 (split; [vm_compute; reflexivity|]).
  repeat (constructor; [vm_compute; reflexivity|]). constructor.
Qed.

(** The optional fields that are set are sent, with their values, under
    the names of the struct tags: a non-empty string, a flag that is true, a
    minimum score that is finite and not zero (as the literal the encoder
    prints for it), a cookie map that is not empty (as an object with one
    member for each cookie, and no other: looking up a name in it gives the
    value the map has for it). *)
Theorem set_optional_fields_are_sent :
  (forall t, TaskBase_Proxy t <> "" ->
             assoc "proxy" (TaskBase_members t) = Some (JString (TaskBase_Proxy t)))
  /\ (forall t, TaskBase_UserAgent t <> "" ->
                assoc "userAgent" (TaskBase_members t) = Some (JString (TaskBase_UserAgent t)))
  /\ (forall t, HCaptchaTask_RqData t <> "" ->
                assoc "rqdata" (HCaptchaTask_members t)
                = Some (JString (HCaptchaTask_RqData t)))
  /\ (forall t, HCaptchaTask_Invisible t = true ->
                assoc "invisible" (HCaptchaTask_members t) = Some (JBool true))
  /\ (forall t, HCaptchaTask_Enterprise t = true ->
                assoc "enterprise" (HCaptchaTask_members t) = Some (JBool true))
  /\ (forall t ms, RecaptchaTask_IsInvisible t = true ->
                   RecaptchaTask_members t = Some ms ->
                   assoc "isInvisible" ms = Some (JBool true))
  /\ (forall t, PrimFloat.is_zero (RecaptchaTask_MinScore t) = false ->
                PrimFloat.is_finite (RecaptchaTask_MinScore t) = true ->
                exists ms,
                  RecaptchaTask_members t = Some ms
                  /\ assoc "minScore" ms
                     = Some (JNumber (float64_literal (RecaptchaTask_MinScore t))))
  /\ (forall t ms, RecaptchaTask_PageAction t <> "" ->
                   RecaptchaTask_members t = Some ms ->
                   assoc "pageAction" ms = Some (JString (RecaptchaTask_PageAction t)))
  /\ (forall t, TurnstileTask_Invisible t = true ->
                assoc "invisible" (TurnstileTask_members t) = Some (JBool true))
  /\ (forall d, Data_Blob d <> "" ->
                assoc "blob" (Data_members d) = Some (JString (Data_Blob d)))
  /\ (forall d, Data_CustomCookies d <> ∅ ->
                exists cookies,
                  assoc "custom_cookies" (Data_members d) = Some (JObject cookies)
                  /\ length cookies = size (Data_CustomCookies d)
                  /\ forall name,
                       assoc name cookies = JString <$> Data_CustomCookies d !! name).
Proof.
  repeat apply conj.
  - intros [ty p ua k u]; cbn; intros Hp. destruct p; [contradiction|reflexivity].
  - intros [ty p ua k u]; cbn; intros Hua. destruct ua; [contradiction|].
    destruct p; reflexivity.
  - intros [[ty p ua k u] rq inv ent]; cbn; intros Hrq. destruct rq; [contradiction|].
    destruct p, ua; reflexivity.
  - intros [[ty p ua k u] rq inv ent]; cbn; intros ->. destruct p, ua, rq; reflexivity.
  - intros [[ty p ua k u] rq inv ent]; cbn; intros ->. destruct p, ua, rq, inv; reflexivity.
  - intros [[ty p ua k u] inv sc pa] ms; cbn; intros ->.
    unfold RecaptchaTask_members, float64_member;
      cbn [RecaptchaTask_MinScore RecaptchaTask_TaskBase RecaptchaTask_IsInvisible
           RecaptchaTask_PageAction].
    destruct (PrimFloat.is_zero sc); [|destruct (PrimFloat.is_finite sc)];
      cbn [mbind option_bind]; intros [= <-]; destruct p, ua; reflexivity.
  - intros [[ty p ua k u] inv sc pa]; cbn [RecaptchaTask_MinScore]; intros Hz Hfin.
    unfold RecaptchaTask_members, float64_member;
      cbn [RecaptchaTask_MinScore RecaptchaTask_TaskBase RecaptchaTask_IsInvisible
           RecaptchaTask_PageAction].
    rewrite Hz, Hfin; cbn [mbind option_bind]. eexists. split; [reflexivity|].
    destruct p, ua, inv; reflexivity.
  - intros [[ty p ua k u] inv sc pa] ms; cbn; intros Hpa.
    unfold RecaptchaTask_members, float64_member;
      cbn [RecaptchaTask_MinScore RecaptchaTask_TaskBase RecaptchaTask_IsInvisible
           RecaptchaTask_PageAction].
    destruct pa; [contradiction|].
    destruct (PrimFloat.is_zero sc); [|destruct (PrimFloat.is_finite sc)];
      cbn [mbind option_bind]; intros [= <-]; destruct p, ua, inv; reflexivity.
  - intros [[ty p ua k u] inv]; cbn; intros ->. destruct p, ua; reflexivity.
  - intros [blob cookies]; cbn; intros Hb. destruct blob; [contradiction|reflexivity].
  - intros [blob cookies]; cbn; intros Hc. unfold Data_members; cbn.
    rewrite bool_decide_eq_false_2 by exact Hc. eexists.
    split; [destruct blob; reflexivity|]. split.
    + now rewrite length_map, length_sorted_entries.
    + intros name. apply assoc_sorted_entries.
Qed.

(** A proxy, the enterprise flag, and a minimum score of [1e16]. *)
Lemma set_optional_fields_are_sent_witness :
  assoc "proxy" (TaskBase_members (mkTaskBase "" "user:pw@10.0.0.1:8080" "" "k" "u"))
  = Some (JString "user:pw@10.0.0.1:8080")
  /\ assoc "enterprise" (HCaptchaTask_members example_hcaptcha) = Some (JBool true)
  /\ exists ms,
       RecaptchaTask_members (mkRecaptchaTask example_base false 0x1.1c37937e08p53 "") = Some ms
       /\ assoc "minScore" ms = Some (JNumber (NInt false 10000000000000000)).
Proof.
  destruct set_optional_fields_are_sent
    as (Hproxy & _ & _ & _ & Henterprise & _ & Hscore & _).
  split; [apply Hproxy; discriminate|]. split; [apply Henterprise; reflexivity|].
  apply (Hscore (mkRecaptchaTask example_base false 0x1.1c37937e08p53 "")); reflexivity.
Defined.

(** ** The cookies of a FunCaptcha task *)

(** [FunCaptcha] sends the cookies of the task description as they are:
    in the [custom_cookies] object of [data], looking up a name gives the
    value the cookie map has for it, and nothing for a name the map does not
    have. *)
Theorem FunCaptcha_sends_every_cookie
    (remote : Request -> Reply) (m : machine) (c : loc) (this : VastCap)
    (data : FunCaptchaTask) :
  mem m !! c = Some (VVastCap this) ->
  Data_CustomCookies (FunCaptchaTask_Data data) <> ∅ ->
  exists r m' req,
    FunCaptcha remote c data m = Return r m'
    /\ wire m' = wire m ++ [req]
    /\ forall name,
         ((task_of req ≫= member "data") ≫= member "custom_cookies") ≫= member name
         = JString <$> Data_CustomCookies (FunCaptchaTask_Data data) !! name.
Proof.
  intros Hc Hcookies. run Hc. do 3 eexists. do 2 (split; [reflexivity|]).
  intros name. destruct data as [[ty p ua k u] [blob cookies]].
  cbn [FunCaptchaTask_Data Data_CustomCookies] in Hcookies |- *.
  unfold task_of, createTask_request, FunCaptchaTask_members, TaskBase_members,
    Data_members, omitempty.
  cbn [FunCaptchaTask_set_Type FunCaptchaTask_TaskBase FunCaptchaTask_Data
       TaskBase_set_Type TaskBase_Type TaskBase_Proxy TaskBase_UserAgent
       TaskBase_WebsiteKey TaskBase_WebsiteURL Data_Blob Data_CustomCookies
       Request_Body].
  rewrite bool_decide_eq_false_2 by exact Hcookies.
  destruct p, ua, blob; cbn; apply assoc_sorted_entries.
Qed.

Lemma FunCaptcha_sends_every_cookie_witness :
  exists r m' req,
    FunCaptcha (mock 200 (taskId_body "abc123")) 0%nat example_funcaptcha fresh_client
    = Return r m'
    /\ wire m' = wire fresh_client ++ [req]
    /\ forall name,
         ((task_of req ≫= member "data") ≫= member "custom_cookies") ≫= member name
         = JString <$> ({[ "session" := "s-1"; "lang" := "en" ]} : gmap string string) !! name.
Proof.
  apply (FunCaptcha_sends_every_cookie (mock 200 (taskId_body "abc123")) fresh_client
           0%nat (mkVastCap "key") example_funcaptcha).
  - reflexivity.
  - apply insert_non_empty.
Defined.

(** ** Several clients, several calls *)

(** Two clients made by [New] are two cells: each one sends its own key,
    whatever has been done with the other. *)
Theorem clients_are_independent
    (remote : Request -> Reply) (m0 : machine) (key1 key2 taskID : string) :
  exists c1 c2 m,
    (c1 ← New key1; c2 ← New key2; mret (c1, c2)) m0 = Return (c1, c2) m
    /\ c1 <> c2
    /\ (exists r m',
          GetResult remote c1 taskID m = Return r m'
          /\ wire m' = wire m0 ++ [getTaskResult_request key1 taskID])
    /\ (exists r m',
          GetResult remote c2 taskID m = Return r m'
          /\ wire m' = wire m0 ++ [getTaskResult_request key2 taskID]).
Proof.
  set (m := mkMachine ((mem m0 ++ [VVastCap (mkVastCap key1)])
                        ++ [VVastCap (mkVastCap key2)]) (wire m0)).
  exists (length (mem m0)), (S (length (mem m0))), m.
  split.
  { rewrite bind_run, New_run, bind_run, New_run. cbn [mem wire].
    rewrite length_app. cbn [length]. rewrite Nat.add_1_r. reflexivity. }
  split; [lia|].
  assert (H1 : mem m !! length (mem m0) = Some (VVastCap (mkVastCap key1))).
  { subst m; cbn [mem]. rewrite <- app_assoc. now apply list_lookup_middle. }
  assert (H2 : mem m !! S (length (mem m0)) = Some (VVastCap (mkVastCap key2))).
  { subst m; cbn [mem]. apply list_lookup_middle. rewrite length_app. cbn [length]. lia. }
  split.
  - do 2 eexists. rewrite (GetResult_run remote _ _ _ H1). split; reflexivity.
  - do 2 eexists. rewrite (GetResult_run remote _ _ _ H2). split; reflexivity.
Qed.

(** ** A receiver that is nil *)

Lemma load_nil (m : machine) (c : loc) (cells : list value) :
  (forall v, mem m !! c <> Some (VVastCap v)) ->
  (forall v, cells <> [VVastCap v]) ->
  (length cells <= 1)%nat ->
  load (T := VastCap) c (mkMachine (mem m ++ cells) (wire m)) = Panic.
Proof.
  intros Hnil Hcells Hlen. unfold load; cbn [mem].
  destruct ((mem m ++ cells) !! c) as [v|] eqn:Hl; [|reflexivity].
  destruct v; try reflexivity. exfalso.
  apply lookup_app_Some in Hl as [Hl|[_ Hl]]; [now apply (Hnil v)|].
  destruct cells as [|x [|y cells]]; cbn in Hlen; [discriminate Hl| |lia].
  destruct (c - length (mem m))%nat; [|discriminate Hl].
  injection Hl as ->. now apply (Hcells v).
Qed.

(** A method called on a pointer behind which there is no client (a nil
    [*VastCap]) panics, when it reads the API key. *)
Theorem nil_receiver_panics
    (remote : Request -> Reply) (m : machine) (c : loc) :
  (forall v, mem m !! c <> Some (VVastCap v)) ->
  (forall data, HCaptcha remote c data m = Panic)
  /\ (forall data v3, Recaptcha remote c data v3 m = Panic)
  /\ (forall data, Turnstile remote c data m = Panic)
  /\ (forall data, FunCaptcha remote c data m = Panic)
  /\ (forall data, ImageToText remote c data m = Panic)
  /\ (forall taskID, GetResult remote c taskID m = Panic).
Proof.
  intros Hnil. repeat apply conj.
  - intros data. unfold HCaptcha.
    rewrite bind_run, alloc_run, bind_run, (modify_last (T := HCaptchaTask)), bind_run.
    now rewrite (load_nil m c [_] Hnil) by (try (intros v; discriminate); cbn; lia).
  - intros data v3. unfold Recaptcha.
    rewrite bind_run, alloc_run, bind_run, (modify_last (T := RecaptchaTask)), bind_run.
    destruct v3.
    + rewrite (modify_last (T := RecaptchaTask)), bind_run.
      now rewrite (load_nil m c [_] Hnil) by (try (intros v; discriminate); cbn; lia).
    + rewrite ret_run, bind_run. now rewrite (load_nil m c [_] Hnil) by (try (intros v; discriminate); cbn; lia).
  - intros data. unfold Turnstile.
    rewrite bind_run, alloc_run, bind_run, (modify_last (T := TurnstileTask)), bind_run.
    now rewrite (load_nil m c [_] Hnil) by (try (intros v; discriminate); cbn; lia).
  - intros data. unfold FunCaptcha.
    rewrite bind_run, alloc_run, bind_run, (modify_last (T := FunCaptchaTask)), bind_run.
    now rewrite (load_nil m c [_] Hnil) by (try (intros v; discriminate); cbn; lia).
  - intros data. unfold ImageToText.
    rewrite bind_run, alloc_run, bind_run, (modify_last (T := TaskBase)), bind_run.
    now rewrite (load_nil m c [_] Hnil) by (try (intros v; discriminate); cbn; lia).
  - intros taskID. unfold GetResult. rewrite bind_run.
    assert (Hl : load (T := VastCap) c (mkMachine (mem m ++ []) (wire m)) = Panic)
      by (apply (load_nil m c [] Hnil); [intros v; discriminate|cbn; lia]).
    rewrite app_nil_r in Hl.
    destruct m as [cells w]. cbn [mem wire] in Hl. now rewrite Hl.
Qed.

Lemma nil_receiver_panics_witness :
  GetResult (mock 200 processing_body) 0%nat "task-1" boot = Panic.
Proof.
  apply (nil_receiver_panics (mock 200 processing_body) boot 0%nat).
  intros v. discriminate.
Defined.
